(** * elizaos-plugin-multichain: derived-address provider and transfer actions

    A shallow embedding of the plugin's wallet provider
    ([providers/wallet.ts]), its amount helpers ([utils/multichain.ts])
    and its transfer actions ([actions/transfer.ts]), in the two variants
    the repository ships: the multi-chain bundle (BTC and ETH) and the
    BTC-only TypeScript sources.

    JavaScript numbers are IEEE 754 binary64 values ([spec_float]); the
    pieces of the language and of bignumber.js that the amount conversion
    goes through ([Number(s)], [Number::toString], [Number.prototype.toFixed],
    [BigNumber(n).shiftedBy(k).toNumber()]) are written out over [Z].
    Calls that leave the plugin (derivation, sign-and-send, the agent
    runtime) are oracles over an abstract world state, and every such call
    is recorded in a trace. *)

From Stdlib Require Import ZArith String Ascii List Lia Bool DecimalString.
From Stdlib Require Import Floats.SpecFloat.
From stdpp Require Import gmap strings list fin_maps.
Import ListNotations.

(** ** JavaScript numbers *)

Module JsNumber.

Local Open Scope Z_scope.

(** The Number value for a positive rational [p / q]: round to nearest,
    ties to even, on 53 bits of precision, with the subnormal range below
    [2^-1022] and overflow to infinity above the largest finite double. *)

Definition div_half_even (num den : Z) : Z :=
  let q := num / den in
  let r := num mod den in
  match 2 * r ?= den with
  | Lt => q
  | Gt => q + 1
  | Eq => if Z.even q then q else q + 1
  end.

Definition scale_num (p e : Z) : Z := if 0 <=? e then p else p * 2 ^ (- e).
Definition scale_den (q e : Z) : Z := if 0 <=? e then q * 2 ^ e else q.

Definition round_ratio (neg : bool) (p q : Z) : spec_float :=
  if (p <=? 0) || (q <=? 0) then S754_zero neg
  else
    let d := Z.log2 p - Z.log2 q in
    let above := if 0 <=? d then q * 2 ^ d <=? p else q <=? p * 2 ^ (- d) in
    let e := Z.max (if above then d - 52 else d - 53) (-1074) in
    let m := div_half_even (scale_num p e) (scale_den q e) in
    let '(m, e) := if m =? 2 ^ 53 then (2 ^ 52, e + 1) else (m, e) in
    if 971 <? e then S754_infinity neg
    else match m with
         | Zpos mp => S754_finite neg mp e
         | _ => S754_zero neg
         end.

(** The Number value for the decimal [coef * 10^exp10]. *)
Definition round_decimal (neg : bool) (coef exp10 : Z) : spec_float :=
  if 0 <=? exp10 then round_ratio neg (coef * 10 ^ exp10) 1
  else round_ratio neg coef (10 ^ (- exp10)).

(** A positive finite double [m * 2^e] as a ratio of integers. *)
Definition ratio_num (m : positive) (e : Z) : Z :=
  if 0 <=? e then Zpos m * 2 ^ e else Zpos m.
Definition ratio_den (e : Z) : Z :=
  if 0 <=? e then 1 else 2 ^ (- e).

(** *** [Number(s)]: StringToNumber *)

(** A string stands for the JavaScript string it encodes in UTF-8.
    [white_space] lists the encodings of the code points that
    StringToNumber strips from both ends: WhiteSpace (TAB, VT, FF, SP,
    U+00A0, U+FEFF and the space separators U+1680, U+2000 to U+200A,
    U+202F, U+205F, U+3000) and LineTerminator (LF, CR, U+2028, U+2029). *)
Definition white_space : list (list nat) :=
  [ [9%nat]; [10%nat]; [11%nat]; [12%nat]; [13%nat]; [32%nat];
    [194; 160]%nat;
    [225; 154; 128]%nat;
    [226; 128; 128]%nat; [226; 128; 129]%nat; [226; 128; 130]%nat;
    [226; 128; 131]%nat; [226; 128; 132]%nat; [226; 128; 133]%nat;
    [226; 128; 134]%nat; [226; 128; 135]%nat; [226; 128; 136]%nat;
    [226; 128; 137]%nat; [226; 128; 138]%nat;
    [226; 128; 168]%nat; [226; 128; 169]%nat; [226; 128; 175]%nat;
    [226; 129; 159]%nat;
    [227; 128; 128]%nat;
    [239; 187; 191]%nat ].

(** What is left of [l] after the bytes [pattern], when [l] starts with
    them. *)
Fixpoint after_prefix (pattern : list nat) (l : list ascii)
  : option (list ascii) :=
  match pattern, l with
  | [], _ => Some l
  | b :: pattern', c :: l' =>
      if (nat_of_ascii c =? b)%nat then after_prefix pattern' l' else None
  | _ :: _, [] => None
  end.

(** What is left of [l] after one of the [patterns], the first that fits. *)
Fixpoint after_one_of (patterns : list (list nat)) (l : list ascii)
  : option (list ascii) :=
  match patterns with
  | [] => None
  | pattern :: others =>
      match after_prefix pattern l with
      | Some rest => Some rest
      | None => after_one_of others l
      end
  end.

(** Drops from the front of [l] as many of the [patterns] as there are;
    [fuel] bounds their number. *)
Fixpoint drop_all (fuel : nat) (patterns : list (list nat)) (l : list ascii)
  : list ascii :=
  match fuel with
  | O => l
  | S fuel' =>
      match after_one_of patterns l with
      | Some rest => drop_all fuel' patterns rest
      | None => l
      end
  end.

Definition drop_spaces (l : list ascii) : list ascii :=
  drop_all (length l) white_space l.

(** The same from the end: on the reversed string, the reversed
    encodings. *)
Definition drop_spaces_end (l : list ascii) : list ascii :=
  rev (drop_all (length l) (map (@rev nat) white_space) (rev l)).

Definition trim (l : list ascii) : list ascii :=
  drop_spaces_end (drop_spaces l).

Definition digit_of (base : Z) (c : ascii) : option Z :=
  let n := Z.of_nat (nat_of_ascii c) in
  let d := if (48 <=? n) && (n <=? 57) then n - 48
           else if (97 <=? n) && (n <=? 102) then n - 87
           else if (65 <=? n) && (n <=? 70) then n - 55
           else 99 in
  if d <? base then Some d else None.

(** Reads the longest run of digits: its value, its length, the rest. *)
Fixpoint read_digits (base : Z) (l : list ascii) (acc : Z) (cnt : Z)
  : Z * Z * list ascii :=
  match l with
  | c :: r =>
      match digit_of base c with
      | Some d => read_digits base r (acc * base + d) (cnt + 1)
      | None => (acc, cnt, l)
      end
  | [] => (acc, cnt, [])
  end.

Definition is_char (c : ascii) (n : nat) : bool := (nat_of_ascii c =? n)%nat.

(** ExponentPart, optional: [e] or [E], an optional sign, at least one digit. *)
Definition read_exponent (l : list ascii) : option Z :=
  match l with
  | [] => Some 0
  | c :: r =>
      if is_char c 101 || is_char c 69 then
        let '(neg, r) := match r with
                         | s :: r' => if is_char s 45 then (true, r')
                                      else if is_char s 43 then (false, r')
                                      else (false, r)
                         | [] => (false, r)
                         end in
        match read_digits 10 r 0 0 with
        | (v, cnt, []) => if 0 <? cnt then Some (if neg then - v else v) else None
        | _ => None
        end
      else None
  end.

(** StrUnsignedDecimalLiteral without [Infinity]: the coefficient and the
    power of ten, so that the literal denotes [coef * 10^exp10]. *)
Definition read_decimal (l : list ascii) : option (Z * Z) :=
  let '(ip, ic, r) := read_digits 10 l 0 0 in
  let '(coef, fc, r) :=
    match r with
    | c :: r' => if is_char c 46 then read_digits 10 r' ip 0 else (ip, 0, r)
    | [] => (ip, 0, r)
    end in
  if 0 <? ic + fc then
    match read_exponent r with
    | Some e => Some (coef, e - fc)
    | None => None
    end
  else None.

Definition read_radix (base : Z) (l : list ascii) : spec_float :=
  match read_digits base l 0 0 with
  | (v, cnt, []) => if 0 <? cnt then round_ratio false v 1 else S754_nan
  | _ => S754_nan
  end.

Definition Number_of_chars (l : list ascii) : spec_float :=
  match trim l with
  | [] => S754_zero false
  | c :: r =>
      let '(neg, signed, body) :=
        if is_char c 45 then (true, true, r)
        else if is_char c 43 then (false, true, r)
        else (false, false, c :: r) in
      if String.eqb (string_of_list_ascii body) "Infinity"
      then S754_infinity neg
      else
        match body, signed with
        | z :: x :: r', false =>
            if is_char z 48 && (is_char x 120 || is_char x 88) then read_radix 16 r'
            else if is_char z 48 && (is_char x 111 || is_char x 79) then read_radix 8 r'
            else if is_char z 48 && (is_char x 98 || is_char x 66) then read_radix 2 r'
            else match read_decimal body with
                 | Some (coef, e) => round_decimal neg coef e
                 | None => S754_nan
                 end
        | _, _ =>
            match read_decimal body with
            | Some (coef, e) => round_decimal neg coef e
            | None => S754_nan
            end
        end
  end.

(** [Number(s)] for a string [s]. *)
Definition Number (s : string) : spec_float :=
  Number_of_chars (list_ascii_of_string s).

(** *** [Number::toString]: the shortest decimal that reads back as [x] *)

Definition is_double (m : positive) (e : Z) (x : spec_float) : bool :=
  match x with
  | S754_finite false m' e' => (Zpos m' =? Zpos m) && (e' =? e)
  | _ => false
  end.

Fixpoint magnitude_up (fuel : nat) (p q n : Z) : Z :=
  match fuel with
  | O => n
  | S f => if p <? q * 10 ^ n then n else magnitude_up f p q (n + 1)
  end.

Fixpoint magnitude_down (fuel : nat) (p q n : Z) : Z :=
  match fuel with
  | O => n
  | S f => if q <=? p * 10 ^ (1 - n) then n else magnitude_down f p q (n - 1)
  end.

(** The [n] with [10^(n-1) <= p / q < 10^n]. *)
Definition magnitude (p q : Z) : Z :=
  if q <=? p then magnitude_up 400 p q 1 else magnitude_down 400 p q 0.

(** [p / (q * 10^t)] as a ratio of integers. *)
Definition shift_num (p t : Z) : Z := if 0 <=? t then p else p * 10 ^ (- t).
Definition shift_den (q t : Z) : Z := if 0 <=? t then q * 10 ^ t else q.

(** Tries [k] digits, then [k + 1], ...: the candidates with [k] digits are
    the two integers around [x / 10^(n-k)]; one is kept when it reads back as
    [x], the closer of the two when both do (the even one on a tie). *)
Fixpoint shortest_from (fuel : nat) (m : positive) (e n k : Z) : Z * Z :=
  let t := n - k in
  let num := shift_num (ratio_num m e) t in
  let den := shift_den (ratio_den e) t in
  let lo := num / den in
  let hi := lo + 1 in
  let lo_ok := (0 <? lo) && is_double m e (round_decimal false lo t) in
  let hi_ok := is_double m e (round_decimal false hi t) in
  let pick :=
    match 2 * num ?= (lo + hi) * den with
    | Lt => lo
    | Gt => hi
    | Eq => if Z.even lo then lo else hi
    end in
  match fuel with
  | O => (lo, t)
  | S f =>
      if lo_ok && hi_ok then (pick, t)
      else if lo_ok then (lo, t)
      else if hi_ok then (hi, t)
      else shortest_from f m e n (k + 1)
  end.

(** The digits [s] and the power [t] with [String(x)] denoting [s * 10^t];
    a candidate that came out as [10^k] is written with one digit. *)
Definition shortest_decimal (m : positive) (e : Z) : Z * Z :=
  let n := magnitude (ratio_num m e) (ratio_den e) in
  let '(s, t) := shortest_from 17 m e n 1 in
  if s =? 10 ^ (n - t) then (10 ^ (n - t - 1), t + 1) else (s, t).

Definition digits (n : Z) : string :=
  NilZero.string_of_uint (N.to_uint (Z.to_N n)).

Fixpoint zeros (n : nat) : string :=
  match n with
  | O => ""
  | S n' => "0" +:+ zeros n'
  end.

Definition Number_toString (x : spec_float) : string :=
  match x with
  | S754_nan => "NaN"
  | S754_zero _ => "0"
  | S754_infinity neg => if neg then "-Infinity" else "Infinity"
  | S754_finite neg m e =>
      let '(s, t) := shortest_decimal m e in
      let ds := digits s in
      let k := Z.of_nat (String.length ds) in
      let n := k + t in
      let body :=
        if (k <=? n) && (n <=? 21) then ds +:+ zeros (Z.to_nat (n - k))
        else if (0 <? n) && (n <=? 21) then
          substring 0 (Z.to_nat n) ds +:+ "." +:+
          substring (Z.to_nat n) (Z.to_nat (k - n)) ds
        else if (-6 <? n) && (n <=? 0) then
          "0." +:+ zeros (Z.to_nat (- n)) +:+ ds
        else
          let ex := (if 0 <=? n - 1 then "+" else "-") +:+ digits (Z.abs (n - 1)) in
          if k =? 1 then ds +:+ "e" +:+ ex
          else substring 0 1 ds +:+ "." +:+
               substring 1 (Z.to_nat (k - 1)) ds +:+ "e" +:+ ex in
      if neg then "-" +:+ body else body
  end.

(** *** [Number.prototype.toFixed()], no fraction digits *)

(** The integer nearest to [p / q], the larger one of two. *)
Definition nearest_integer (p q : Z) : Z := (2 * p + q) / (2 * q).

Definition Number_toFixed (x : spec_float) : string :=
  match x with
  | S754_finite neg m e =>
      let p := ratio_num m e in
      let q := ratio_den e in
      let body :=
        if q * 10 ^ 21 <=? p then Number_toString (S754_finite false m e)
        else digits (nearest_integer p q) in
      if neg then "-" +:+ body else body
  | _ => Number_toString x
  end.

(** *** bignumber.js: [BigNumber(n)], [shiftedBy], [toNumber] *)

(** A BigNumber is a sign, a coefficient and a power of ten, or one of the
    three special values. *)
Inductive BigNumber : Type :=
  | BigNaN
  | BigInfinity (neg : bool)
  | BigFinite (neg : bool) (coef : Z) (exp10 : Z).

(** [BigNumber(n)] for a JavaScript number: the constructor reads the
    digits of [String(n)] (for a small integer, the integer itself). *)
Definition BigNumber_of_number (x : spec_float) : BigNumber :=
  match x with
  | S754_nan => BigNaN
  | S754_infinity neg => BigInfinity neg
  | S754_zero neg => BigFinite neg 0 0
  | S754_finite neg m e =>
      let '(s, t) := shortest_decimal m e in BigFinite neg s t
  end.

(** [x.shiftedBy(k)] is [x.times('1e' + k)]; products are exact. *)
Definition shiftedBy (x : BigNumber) (k : Z) : BigNumber :=
  match x with
  | BigFinite neg coef exp10 => BigFinite neg coef (exp10 + k)
  | _ => x
  end.

(** [x.toNumber()] is [+x.valueOf()]: the Number value for the decimal. *)
Definition toNumber (x : BigNumber) : spec_float :=
  match x with
  | BigNaN => S754_nan
  | BigInfinity neg => S754_infinity neg
  | BigFinite neg coef exp10 => round_decimal neg coef exp10
  end.

End JsNumber.

(** ** JavaScript values, errors and results *)

Module Js.

Import JsNumber.

#[local] Unset Elimination Schemes.
Inductive value : Type :=
  | Undefined
  | Null
  | Bool (b : bool)
  | Num (x : spec_float)
  | Str (s : string)
  | Obj (fields : list (string * value)).
#[local] Set Elimination Schemes.

Definition typeof (v : value) : string :=
  match v with
  | Undefined => "undefined"
  | Null => "object"
  | Bool _ => "boolean"
  | Num _ => "number"
  | Str _ => "string"
  | Obj _ => "object"
  end.

(** An [Error] object: what [String(error)] prints is made of its name and
    its message. *)
Record Error : Type := { name : string; message : string }.

Definition new_Error (msg : string) : Error :=
  {| name := "Error"; message := msg |}.

Definition new_TypeError (msg : string) : Error :=
  {| name := "TypeError"; message := msg |}.

Definition Error_toString (e : Error) : string :=
  if String.eqb (name e) "" then message e
  else if String.eqb (message e) "" then name e
  else name e +:+ ": " +:+ message e.

(** A computation returns or throws. *)
Inductive Result (A : Type) : Type :=
  | Ok (a : A)
  | Throw (e : Error).
Arguments Ok {A} a.
Arguments Throw {A} e.

Fixpoint own_property (k : string) (fields : list (string * value)) : value :=
  match fields with
  | [] => Undefined
  | (k', v) :: rest => if String.eqb k k' then v else own_property k rest
  end.

(** [v.k]: reading a property of [undefined] or [null] throws; a primitive
    has none of the properties read here. *)
Definition get (v : value) (k : string) : Result value :=
  match v with
  | Undefined =>
      Throw (new_TypeError
               ("Cannot read properties of undefined (reading '" +:+ k +:+ "')"))
  | Null =>
      Throw (new_TypeError
               ("Cannot read properties of null (reading '" +:+ k +:+ "')"))
  | Obj fields => Ok (own_property k fields)
  | _ => Ok Undefined
  end.

(** [String(v)], as a template literal applies it. *)
Definition ToString (v : value) : string :=
  match v with
  | Undefined => "undefined"
  | Null => "null"
  | Bool b => if b then "true" else "false"
  | Num x => Number_toString x
  | Str s => s
  | Obj _ => "[object Object]"
  end.

(** [!s] for a setting: [null], [undefined] and the empty string are falsy. *)
Definition falsy (o : option string) : bool :=
  match o with
  | None => true
  | Some s => String.eqb s ""
  end.

(** [o ?? d] *)
Definition nullish (o : option string) (d : string) : string :=
  match o with
  | Some s => s
  | None => d
  end.

(** [o || d] *)
Definition or_else (o : option string) (d : string) : string :=
  match o with
  | Some s => if String.eqb s "" then d else s
  | None => d
  end.

End Js.

Import Js.

(** ** node-cache *)

Module NodeCache.

(** A stored value [v] with the time [t] (milliseconds) after which it is
    expired; [t = 0] never expires. *)
Record Wrapped (V : Type) : Type := { v : V; t : Z }.
Arguments v {V} _.
Arguments t {V} _.

Record Cache (V : Type) : Type := {
  stdTTL : Z;
  data : gmap string (Wrapped V)
}.
Arguments stdTTL {V} _.
Arguments data {V} _.

(** [new NodeCache({ stdTTL })] *)
Definition create {V : Type} (ttl : Z) : Cache V :=
  {| stdTTL := ttl; data := ∅ |}.

(** [cache.get(key)] at time [now]: an expired entry is deleted and
    [undefined] is returned. *)
Definition get {V : Type} (c : Cache V) (now : Z) (key : string)
  : option V * Cache V :=
  match data c !! key with
  | Some w =>
      if negb (t w =? 0)%Z && (t w <? now)%Z
      then (None, {| stdTTL := stdTTL c; data := delete key (data c) |})
      else (Some (v w), c)
  | None => (None, c)
  end.

(** [cache.set(key, value)] at time [now], with the standard TTL in seconds. *)
Definition set {V : Type} (c : Cache V) (now : Z) (key : string) (value : V)
  : Cache V :=
  let livetime := if (stdTTL c =? 0)%Z then 0%Z
                  else (now + stdTTL c * 1000)%Z in
  {| stdTTL := stdTTL c;
     data := <[key := {| v := value; t := livetime |}]> (data c) |}.

End NodeCache.

(** ** The plugin's surroundings: calls that leave it, and its state *)

Module Plugin.

Inductive ChainKind : Type := BTC | EVM.

(** A chain configuration object, by the fields the code reads; a field
    that is absent reads as [undefined]. [nearNetworkId] and [contract]
    come from spreading an entry of the signer table and are missing when
    there is none; [network] is set for Bitcoin only. *)
Record ChainConfig : Type := {
  nearNetworkId : option string;
  contract : option string;
  network : option string;
  providerUrl : option string
}.

(** What [deriveAddressAndPublicKey] resolves to. *)
Record Derived : Type := { address : string; publicKey : string }.

Record Transaction : Type := {
  tx_to : string;
  tx_value : string;
  tx_from : string;
  tx_publicKey : option string
}.

Record RequestChainConfig : Type := {
  rc_network : option string;
  rc_providerUrl : option string;
  rc_contract : option string
}.

Record NearAuthentication : Type := {
  auth_accountId : string;
  auth_networkId : option string
}.

Record SignRequest : Type := {
  transaction : Transaction;
  chainConfig : RequestChainConfig;
  nearAuthentication : NearAuthentication;
  derivationPath : string
}.

(** The result of sign-and-send: [{ success: true, transactionHash }] or
    [{ success: false, errorMessage }]. *)
Inductive SignResponse : Type :=
  | Success (transactionHash : string)
  | Failure (errorMessage : string).

Inductive Template : Type := transferTemplate | btcTransferTemplate.
Inductive Schema : Type := TransferSchema | BtcTransferSchema.
Inductive LogLevel : Type := LogLog | LogInfo | LogError.

(** The [content] field of what the handler passes to its callback. *)
Inductive Payload : Type :=
  | SuccessContent (signature : string) (amount : value) (recipient : string)
  | ErrorText (error : string)
  | ErrorContent (error : Error).

Record Response : Type := { text : string; content : Payload }.

Section Types.

Context {World State Message KeyPair : Type}.

(** Everything the plugin does that can be seen from outside it, in order.
    A call that leaves the plugin is recorded with the answer it got.
    [EvCall] is a mark only: it records that one of the plugin's own
    transfer routines was entered, with its arguments. *)
Inductive Event : Type :=
  | EvLog (level : LogLevel) (msg : string)
  | EvComposeState (m : Message) (answer : Result State)
  | EvUpdateRecentMessageState (s : State) (answer : Result State)
  | EvGenerateObject (context : string) (schema : Schema)
                     (answer : Result value)
  | EvDerive (chain : ChainKind) (config : option ChainConfig)
             (accountId path : string) (answer : Result Derived)
  | EvSignAndSend (chain : ChainKind) (request : SignRequest) (key : KeyPair)
                  (answer : Result SignResponse)
  | EvCallback (response : Response) (answer : Result unit)
  | EvCall (fn : string) (args : list string).

(** The callback the host hands to a handler: a function of the host's.
    Calling it runs the host's code up to the point where the function
    returns its promise, or throws; both happen inside the handler. *)
Definition Callback : Type := Response -> World -> Result unit * World.

(** The agent runtime and the libraries. A call that waits on the outside
    takes the world as it is and leaves the world changed; it may throw. *)
Record Host : Type := {
  getSetting : string -> option string;
  Date_now : World -> Z;
  composeState : Message -> World -> Result State * World;
  updateRecentMessageState : State -> World -> Result State * World;
  composeContext : State -> Template -> Result string;
  generateObject : string -> Schema -> World -> Result value * World;
  deriveAddressAndPublicKey :
    ChainKind -> option ChainConfig -> string -> string ->
    World -> Result Derived * World;
  KeyPair_fromString : string -> Result KeyPair;
  signAndSendBTCTransaction :
    SignRequest -> KeyPair -> World -> Result SignResponse * World;
  signAndSendEVMTransaction :
    SignRequest -> KeyPair -> World -> Result SignResponse * World
}.

(** A [DerivedAddressProvider] object; [V] is what its cache holds. *)
Record Provider (V : Type) : Type := {
  accountId : string;
  cache : NodeCache.Cache V
}.

(** The world outside and the provider objects allocated so far (a
    reference is an index). *)
Record St (V : Type) : Type := {
  world : World;
  heap : list (Provider V)
}.

(** A computation runs from a state to a result, a state and the events it
    produced. *)
Definition M (V A : Type) : Type := St V -> Result A * St V * list Event.

End Types.

Arguments Event : clear implicits.
Arguments Host : clear implicits.
Arguments Callback : clear implicits.
Arguments M : clear implicits.
Arguments accountId {V} _.
Arguments cache {V} _.
Arguments world {World V} _.
Arguments heap {World V} _.

Section Monad.

Context {World State Message KeyPair V : Type}.

Abbreviation Ev := (Event State Message KeyPair).
Abbreviation H := (Host World State Message KeyPair).
Abbreviation Stt := (@St World V).
Abbreviation Mon := (M World State Message KeyPair V).

Definition ret {A : Type} (a : A) : Mon A := fun st => (Ok a, st, []).

Definition bind {A B : Type} (c : Mon A) (k : A -> Mon B) : Mon B :=
  fun st =>
    match c st with
    | (Ok a, st', evs) =>
        let '(r, st'', evs') := k a st' in (r, st'', evs ++ evs')
    | (Throw e, st', evs) => (Throw e, st', evs)
    end.

Definition throw {A : Type} (e : Error) : Mon A := fun st => (Throw e, st, []).

Definition lift {A : Type} (r : Result A) : Mon A := fun st => (r, st, []).

(** [try { body } catch (error) { handler }] *)
Definition try_catch {A : Type} (body : Mon A) (handler : Error -> Mon A)
  : Mon A :=
  fun st =>
    match body st with
    | (Ok a, st', evs) => (Ok a, st', evs)
    | (Throw e, st', evs) =>
        let '(r, st'', evs') := handler e st' in (r, st'', evs ++ evs')
    end.

Definition emit (ev : Ev) : Mon unit := fun st => (Ok tt, st, [ev]).

(** A call that leaves the plugin: answered by the world, and recorded. *)
Definition external {A : Type} (ev : Result A -> Ev)
  (f : World -> Result A * World) : Mon A :=
  fun st =>
    let '(r, w) := f (world st) in
    (r, {| world := w; heap := heap st |}, [ev r]).

Definition now (h : H) : Mon Z :=
  fun st => (Ok (Date_now h (world st)), st, []).

(** [new DerivedAddressProvider(...)]: a fresh object. *)
Definition alloc (p : Provider V) : Mon nat :=
  fun st =>
    (Ok (length (heap st)),
     {| world := world st; heap := heap st ++ [p] |}, []).

Definition read (this : nat) : Mon (Provider V) :=
  fun st =>
    match heap st !! this with
    | Some p => (Ok p, st, [])
    | None => (Throw (new_TypeError "not a provider object"), st, [])
    end.

Definition write (this : nat) (p : Provider V) : Mon unit :=
  fun st =>
    (Ok tt, {| world := world st; heap := <[this := p]> (heap st) |}, []).

(** [this.cache.get(key)] and [this.cache.set(key, value)] *)
Definition cache_get (h : H) (this : nat) (key : string) : Mon (option V) :=
  bind (read this) (fun p =>
  bind (now h) (fun t =>
  let '(r, c) := NodeCache.get (cache p) t key in
  bind (write this {| accountId := accountId p; cache := c |}) (fun _ =>
  ret r))).

Definition cache_set (h : H) (this : nat) (key : string) (value : V)
  : Mon unit :=
  bind (read this) (fun p =>
  bind (now h) (fun t =>
  write this {| accountId := accountId p;
                cache := NodeCache.set (cache p) t key value |})).

Definition log (level : LogLevel) (msg : string) : Mon unit :=
  emit (EvLog level msg).

(** [new Bitcoin(config)] or [new EVM(config)] followed by
    [deriveAddressAndPublicKey(account, path)] on the object made: one step
    of the library, which gets the configuration as the code passes it
    ([undefined] when a table has no entry) and answers or throws. *)
Definition derive (h : H) (chain : ChainKind) (config : option ChainConfig)
  (account path : string) : Mon Derived :=
  external (EvDerive chain config account path)
           (deriveAddressAndPublicKey h chain config account path).

Definition signAndSend (h : H) (chain : ChainKind) (request : SignRequest)
  (key : KeyPair) : Mon SignResponse :=
  external (EvSignAndSend chain request key)
           (match chain with
            | BTC => signAndSendBTCTransaction h request key
            | EVM => signAndSendEVMTransaction h request key
            end).

(** [if (callback) callback(response)]. The call is made on the spot: the
    function runs and returns or throws before the handler goes on; the
    promise it returns is not awaited. *)
Definition respond (callback : option (Callback World)) (response : Response)
  : Mon unit :=
  match callback with
  | Some f => external (EvCallback response) (f response)
  | None => ret tt
  end.

End Monad.

Notation "'do' x <- c1 ; c2" := (bind c1 (fun x => c2))
  (at level 10, x name, c1 at level 100, c2 at level 200).
Notation "c1 ;; c2" := (bind c1 (fun _ => c2))
  (at level 100, c2 at level 200, right associativity).

(** *** Amounts ([utils/multichain.ts]) *)

Definition parseAmount (n : spec_float) (decimals : Z) : JsNumber.BigNumber :=
  JsNumber.shiftedBy (JsNumber.BigNumber_of_number n) decimals.

Definition parseBTC (n : spec_float) : spec_float :=
  JsNumber.toNumber (parseAmount n 8).

Definition parseETH (n : spec_float) : spec_float :=
  JsNumber.toNumber (parseAmount n 18).

Definition newline : string := String (ascii_of_nat 10) "".

(** [content.k] once [isTransferContent] has passed: the object is neither
    [null] nor [undefined]. *)
Definition field (content : value) (k : string) : value :=
  match get content k with
  | Ok x => x
  | Throw _ => Undefined
  end.

(** The setting when it is truthy. *)
Definition truthy (o : option string) : option string :=
  if falsy o then None else o.

End Plugin.

(** ** The multi-chain bundle: BTC and ETH *)

Module MultiChain.

Import Plugin.

(** *** Configuration ([utils/multichain.ts]) *)

(** [CHAIN_SIGNATURES_CONFIG[nearNetworkId]]: the network id and the signer
    contract of a profile, or nothing for an id that is no key of the table. *)
Definition CHAIN_SIGNATURES_CONFIG (nearNetworkId : string)
  : option (string * string) :=
  if String.eqb nearNetworkId "mainnet" then Some ("mainnet", "v1.signer")
  else if String.eqb nearNetworkId "testnet"
       then Some ("testnet", "v1.signer-prod.testnet")
       else None.

Definition getDerivationPath (chainType : ChainKind) : string :=
  match chainType with
  | BTC => "bitcoin-1"
  | EVM => "evm-1"
  end.

Definition MEMPOOL_API_URL_mainnet : string := "https://mempool.space/api".
Definition MEMPOOL_API_URL_testnet : string :=
  "https://mempool.space/testnet4/api".

Section Config.

Variable getSetting : string -> option string.

Definition getBitcoinConfig : ChainConfig :=
  let nearNetworkId := nullish (getSetting "NEAR_NETWORK") "testnet" in
  let providerUrl :=
    nullish (getSetting "BTC_PROVIDER_URL")
            (if String.eqb nearNetworkId "mainnet"
             then MEMPOOL_API_URL_mainnet else MEMPOOL_API_URL_testnet) in
  let network := nullish (getSetting "BTC_NETWORK") "testnet" in
  {| nearNetworkId := fst <$> CHAIN_SIGNATURES_CONFIG nearNetworkId;
     contract := snd <$> CHAIN_SIGNATURES_CONFIG nearNetworkId;
     network := Some network;
     providerUrl := Some providerUrl |}.

Definition getEvmConfig : ChainConfig :=
  let nearNetworkId := nullish (getSetting "NEAR_NETWORK") "testnet" in
  let providerUrl :=
    nullish (getSetting "EVM_PROVIDER_URL") "https://sepolia.drpc.org" in
  {| nearNetworkId := fst <$> CHAIN_SIGNATURES_CONFIG nearNetworkId;
     contract := snd <$> CHAIN_SIGNATURES_CONFIG nearNetworkId;
     network := None;
     providerUrl := Some providerUrl |}.

End Config.

(** What the provider caches and returns: [{ btc, evm }]. *)
Record Addresses : Type := { btc : string; evm : string }.

(** [isTransferContent(_runtime, content)]. Reading a property of a
    [null] or [undefined] content throws, whichever property comes first;
    of anything else, none does. *)
Definition isTransferContent (content : value) : Result bool :=
  match get content "recipient", get content "amount", get content "symbol" with
  | Ok recipient, Ok amount, Ok symbol =>
      Ok (String.eqb (typeof recipient) "string" &&
          (String.eqb (typeof amount) "string" ||
           String.eqb (typeof amount) "number") &&
          String.eqb (typeof symbol) "string")
  | Throw e, _, _ => Throw e
  | _, Throw e, _ => Throw e
  | _, _, Throw e => Throw e
  end.

Section Code.

Context {World State Message KeyPair : Type}.

Abbreviation H := (Host World State Message KeyPair).
Abbreviation Mon := (M World State Message KeyPair Addresses).

(** *** The provider ([providers/wallet.ts]) *)

Definition new_DerivedAddressProvider (accountId : string) : Mon nat :=
  alloc {| accountId := accountId; cache := NodeCache.create 300 |}.

Definition getDerivedAddress (h : H) (this : nat) : Mon (option Addresses) :=
  try_catch
    (do p <- read this;
     let cacheKey := "derived-addresses-" +:+ accountId p in
     do cachedValue <- cache_get h this cacheKey;
     match cachedValue with
     | Some cached =>
         log LogLog "Cache hit for fetchPortfolioValue";;
         ret (Some cached)
     | None =>
         do b <- derive h BTC (Some (getBitcoinConfig (getSetting h)))
                        (accountId p) (getDerivationPath BTC);
         do e <- derive h EVM (Some (getEvmConfig (getSetting h)))
                        (accountId p) (getDerivationPath EVM);
         let addresses := {| btc := address b; evm := address e |} in
         log LogInfo "Chain Signatures derived addresses:";;
         cache_set h this cacheKey addresses;;
         ret (Some addresses)
     end)
    (fun error =>
       log LogError ("Error in derived address provider: " +:+
                     Error_toString error);;
       ret None).

Definition DerivedAddressProvider_get (h : H) (this : nat)
  : Mon (option Addresses) :=
  getDerivedAddress h this.

Definition walletProvider_get (h : H) : Mon (option Addresses) :=
  try_catch
    (match truthy (getSetting h "NEAR_ADDRESS") with
     | None => throw (new_Error "NEAR_ADDRESS not configured")
     | Some accountId =>
         do provider <- new_DerivedAddressProvider accountId;
         DerivedAddressProvider_get h provider
     end)
    (fun error =>
       log LogError ("Error in get derived address provider: " +:+
                     Error_toString error);;
       ret None).

(** *** The transfer action ([actions/transfer.ts]) *)

Definition transferBTC (h : H) (recipient amount : string) : Mon string :=
  emit (EvCall "transferBTC" [recipient; amount]);;
  match truthy (getSetting h "NEAR_ADDRESS"),
        truthy (getSetting h "NEAR_WALLET_SECRET_KEY") with
  | Some accountId, Some secretKey =>
      let config := getBitcoinConfig (getSetting h) in
      let derivationPath := getDerivationPath BTC in
      do d <- derive h BTC (Some config) accountId derivationPath;
      let request :=
        {| transaction :=
             {| tx_to := recipient;
                tx_value := JsNumber.Number_toFixed
                              (parseBTC (JsNumber.Number amount));
                tx_from := address d;
                tx_publicKey := Some (publicKey d) |};
           chainConfig :=
             {| rc_network := network config;
                rc_providerUrl := providerUrl config;
                rc_contract := contract config |};
           nearAuthentication :=
             {| auth_accountId := accountId;
                auth_networkId := nearNetworkId config |};
           derivationPath := derivationPath |} in
      do key <- lift (KeyPair_fromString h secretKey);
      do response <- signAndSend h BTC request key;
      match response with
      | Success transactionHash => ret transactionHash
      | Failure errorMessage =>
          throw (new_Error ("Transfer BTC failed with error: " +:+ errorMessage))
      end
  | _, _ => throw (new_Error "NEAR wallet credentials not configured")
  end.

Definition transferEth (h : H) (recipient amount : string) : Mon string :=
  emit (EvCall "transferEth" [recipient; amount]);;
  match truthy (getSetting h "NEAR_ADDRESS"),
        truthy (getSetting h "NEAR_WALLET_SECRET_KEY") with
  | Some accountId, Some secretKey =>
      let config := getEvmConfig (getSetting h) in
      let derivationPath := getDerivationPath EVM in
      do d <- derive h EVM (Some config) accountId derivationPath;
      let request :=
        {| transaction :=
             {| tx_to := recipient;
                tx_value := JsNumber.Number_toFixed
                              (parseETH (JsNumber.Number amount));
                tx_from := address d;
                tx_publicKey := None |};
           chainConfig :=
             {| rc_network := None;
                rc_providerUrl := providerUrl config;
                rc_contract := contract config |};
           nearAuthentication :=
             {| auth_accountId := accountId;
                auth_networkId := nearNetworkId config |};
           derivationPath := derivationPath |} in
      do key <- lift (KeyPair_fromString h secretKey);
      do response <- signAndSend h EVM request key;
      match response with
      | Success transactionHash => ret transactionHash
      | Failure errorMessage =>
          throw (new_Error ("Transfer ETH failed with error: " +:+ errorMessage))
      end
  | _, _ => throw (new_Error "NEAR wallet credentials not configured")
  end.

Definition transfer (h : H) (symbol recipient amount : string) : Mon string :=
  emit (EvCall "transfer" [symbol; recipient; amount]);;
  if String.eqb symbol "BTC" then transferBTC h recipient amount
  else if String.eqb symbol "ETH" then transferEth h recipient amount
  else throw (new_Error ("Unsupported symbol to transfer: " +:+ symbol)).

Definition handler (h : H) (message : Message) (state : option State)
  (callback : option (Callback World)) : Mon bool :=
  do currentState <-
       match state with
       | None => external (EvComposeState message) (composeState h message)
       | Some s => external (EvUpdateRecentMessageState s)
                            (updateRecentMessageState h s)
       end;
  do transferContext <- lift (composeContext h currentState transferTemplate);
  do content <- external (EvGenerateObject transferContext TransferSchema)
                         (generateObject h transferContext TransferSchema);
  do valid <- lift (isTransferContent content);
  if negb valid then
    log LogError "Invalid content for MULTI_CHAIN_TRANSFER_TOKEN action:";;
    respond callback
      {| text := "Unable to process transfer request. Invalid content provided.";
         content := ErrorText "Invalid transfer content" |};;
    ret false
  else
    let symbol := ToString (field content "symbol") in
    let recipient := ToString (field content "recipient") in
    let amount := field content "amount" in
    try_catch
      (do txHash <- transfer h symbol recipient (ToString amount);
       respond callback
         {| text := "Successfully transferred " +:+ ToString amount +:+ " " +:+
                    symbol +:+ " to " +:+ recipient +:+ newline +:+
                    "Transaction: " +:+ txHash;
            content := SuccessContent txHash amount recipient |};;
       ret true)
      (fun error =>
         log LogError ("Error during " +:+ symbol +:+ " transfer: " +:+
                       Error_toString error);;
         respond callback
           {| text := "Error transferring " +:+ symbol +:+ ": " +:+
                      Error_toString error;
              content := ErrorContent error |};;
         ret false).

End Code.

End MultiChain.

(** ** The BTC-only sources *)

Module BtcOnly.

Import Plugin.

(** The names every plain object answers to without having them as keys:
    the properties of [Object.prototype]. *)
Definition Object_prototype_names : list string :=
  ["constructor"; "__defineGetter__"; "__defineSetter__"; "hasOwnProperty";
   "__lookupGetter__"; "__lookupSetter__"; "isPrototypeOf";
   "propertyIsEnumerable"; "toString"; "valueOf"; "__proto__";
   "toLocaleString"].

Definition inherited (name : string) : bool :=
  existsb (String.eqb name) Object_prototype_names.

(** What indexing the table with an inherited name gives: a function or
    object of the language, which has none of the configuration's fields. *)
Definition prototype_member : ChainConfig :=
  {| nearNetworkId := None; contract := None; network := None;
     providerUrl := None |}.

(** [BITCOIN_CONFIGS[networkId]] ([utils/multichain.ts]): the entry of the
    two keys, a member of [Object.prototype] for an inherited name,
    [undefined] for every other name. *)
Definition BITCOIN_CONFIGS (networkId : string) : option ChainConfig :=
  if String.eqb networkId "mainnet" then
    Some {| nearNetworkId := Some "mainnet";
            network := Some "mainnet";
            providerUrl := Some "https://mempool.space/api";
            contract := Some "v1.signer" |}
  else if String.eqb networkId "testnet" then
    Some {| nearNetworkId := Some "testnet";
            network := Some "testnet";
            providerUrl := Some "https://mempool.space/testnet4/api";
            contract := Some "v1.signer-prod.testnet" |}
  else if inherited networkId then Some prototype_member
  else None.

(** [isTransferContent(_runtime, content)] *)
Definition isTransferContent (content : value) : Result bool :=
  match get content "recipient", get content "amount" with
  | Ok recipient, Ok amount =>
      Ok (String.eqb (typeof recipient) "string" &&
          (String.eqb (typeof amount) "string" ||
           String.eqb (typeof amount) "number"))
  | Throw e, _ => Throw e
  | _, Throw e => Throw e
  end.

Section Code.

Context {World State Message KeyPair : Type}.

Abbreviation H := (Host World State Message KeyPair).
Abbreviation Mon := (M World State Message KeyPair string).

(** *** The provider ([providers/wallet.ts]) *)

Definition new_DerivedAddressProvider (accountId : string) : Mon nat :=
  alloc {| accountId := accountId; cache := NodeCache.create 300 |}.

(** The part of [getDerivedAddress] after the cache test. *)
Definition derive_and_cache (h : H) (this : nat) (p : Provider string)
  (cacheKey : string) : Mon (option string) :=
  let networkId := or_else (getSetting h "NEAR_NETWORK") "testnet" in
  do d <- derive h BTC (BITCOIN_CONFIGS networkId) (accountId p) "bitcoin-1";
  cache_set h this cacheKey (address d);;
  ret (Some (address d)).

Definition getDerivedAddress (h : H) (this : nat) : Mon (option string) :=
  try_catch
    (do p <- read this;
     let cacheKey := "derived-address-bitcoin-" +:+ accountId p in
     do cachedValue <- cache_get h this cacheKey;
     match cachedValue with
     | Some cached =>
         if String.eqb cached "" then derive_and_cache h this p cacheKey
         else (log LogLog "Cache hit for fetchPortfolioValue";;
               ret (Some cached))
     | None => derive_and_cache h this p cacheKey
     end)
    (fun error =>
       log LogError ("Error in derived address provider: " +:+
                     Error_toString error);;
       ret None).

Definition DerivedAddressProvider_get (h : H) (this : nat)
  : Mon (option string) :=
  getDerivedAddress h this.

Definition walletProvider_get (h : H) : Mon (option string) :=
  try_catch
    (match truthy (getSetting h "NEAR_ADDRESS") with
     | None => throw (new_Error "NEAR_ADDRESS not configured")
     | Some accountId =>
         do provider <- new_DerivedAddressProvider accountId;
         DerivedAddressProvider_get h provider
     end)
    (fun error =>
       log LogError ("Error in get derived address provider: " +:+
                     Error_toString error);;
       ret None).

(** *** The transfer action ([actions/transfer.ts]) *)

Definition transferBTC (h : H) (recipient amount : string) : Mon string :=
  emit (EvCall "transferBTC" [recipient; amount]);;
  match truthy (getSetting h "NEAR_ADDRESS"),
        truthy (getSetting h "NEAR_WALLET_SECRET_KEY") with
  | Some accountId, Some secretKey =>
      let networkId := or_else (getSetting h "NEAR_NETWORK") "testnet" in
      let bitcoinConfig := BITCOIN_CONFIGS networkId in
      let derivationPath := "bitcoin-1" in
      do d <- derive h BTC bitcoinConfig accountId derivationPath;
      match bitcoinConfig with
      | None =>
          throw (new_TypeError
                   "Cannot read properties of undefined (reading 'network')")
      | Some config =>
          let request :=
            {| transaction :=
                 {| tx_to := recipient;
                    tx_value := JsNumber.Number_toFixed
                                  (parseBTC (JsNumber.Number amount));
                    tx_from := address d;
                    tx_publicKey := Some (publicKey d) |};
               chainConfig :=
                 {| rc_network := network config;
                    rc_providerUrl := providerUrl config;
                    rc_contract := contract config |};
               nearAuthentication :=
                 {| auth_accountId := accountId;
                    auth_networkId := nearNetworkId config |};
               derivationPath := derivationPath |} in
          do key <- lift (KeyPair_fromString h secretKey);
          do response <- signAndSend h BTC request key;
          match response with
          | Success transactionHash => ret transactionHash
          | Failure errorMessage =>
              throw (new_Error ("Transfer BTC failed with error: " +:+
                                errorMessage))
          end
      end
  | _, _ => throw (new_Error "BTC wallet credentials not configured")
  end.

Definition handler (h : H) (message : Message) (state : option State)
  (callback : option (Callback World)) : Mon bool :=
  do currentState <-
       match state with
       | None => external (EvComposeState message) (composeState h message)
       | Some s => external (EvUpdateRecentMessageState s)
                            (updateRecentMessageState h s)
       end;
  do transferContext <- lift (composeContext h currentState btcTransferTemplate);
  do content <- external (EvGenerateObject transferContext BtcTransferSchema)
                         (generateObject h transferContext BtcTransferSchema);
  do valid <- lift (isTransferContent content);
  if negb valid then
    log LogError "Invalid content for TRANSFER_BTC action:";;
    respond callback
      {| text := "Unable to process transfer request. Invalid content provided.";
         content := ErrorText "Invalid transfer content" |};;
    ret false
  else
    let recipient := ToString (field content "recipient") in
    let amount := field content "amount" in
    try_catch
      (do txHash <- transferBTC h recipient (ToString amount);
       respond callback
         {| text := "Successfully transferred " +:+ ToString amount +:+
                    " BTC to " +:+ recipient +:+ newline +:+
                    "Transaction: " +:+ txHash;
            content := SuccessContent txHash amount recipient |};;
       ret true)
      (fun error =>
         log LogError ("Error during BTC transfer: " +:+ Error_toString error);;
         respond callback
           {| text := "Error transferring BTC: " +:+ Error_toString error;
              content := ErrorContent error |};;
         ret false).

End Code.

End BtcOnly.

(** ** What the specification says, in its own words *)

Module Spec.

Import Plugin.

(** The base-unit amount the specification asks for: the decimal amount
    times [10^decimals], exactly, as an integer string. Nothing when the
    amount is no plain decimal or the product is no integer. *)
Definition base_units (decimals : Z) (amount : string) : option string :=
  match JsNumber.read_decimal (list_ascii_of_string amount) with
  | Some (coef, exp10) =>
      if (0 <=? exp10 + decimals)%Z
      then Some (JsNumber.digits (coef * 10 ^ (exp10 + decimals))%Z)
      else None
  | None => None
  end.

Definition provider_url_key (chain : ChainKind) : string :=
  match chain with
  | BTC => "BTC_PROVIDER_URL"
  | EVM => "EVM_PROVIDER_URL"
  end.

(** [resolveChainConfig(settings, chainKind)] *)
Definition resolveChainConfig (getSetting : string -> option string)
  (chain : ChainKind) : ChainConfig :=
  match chain with
  | BTC => MultiChain.getBitcoinConfig getSetting
  | EVM => MultiChain.getEvmConfig getSetting
  end.

(** The manual type check as the specification describes it: recipient is
    a string, amount is a string or a number, and symbol, when present, is
    one of the supported values. *)
Definition manual_type_check (content : value) : bool :=
  String.eqb (typeof (field content "recipient")) "string" &&
  (String.eqb (typeof (field content "amount")) "string" ||
   String.eqb (typeof (field content "amount")) "number") &&
  match field content "symbol" with
  | Undefined => true
  | Str s => String.eqb s "BTC" || String.eqb s "ETH"
  | _ => false
  end.

End Spec.

(** ** Reading traces *)

Module Trace.

Import Plugin.

Section Predicates.

Context {State Message KeyPair : Type}.

Abbreviation Ev := (Event State Message KeyPair).

(** A call of a signer primitive: derivation or sign-and-send. *)
Definition is_signer_call (ev : Ev) : bool :=
  match ev with
  | EvDerive _ _ _ _ _ => true
  | EvSignAndSend _ _ _ _ => true
  | _ => false
  end.

Definition is_derive (chain : ChainKind) (ev : Ev) : bool :=
  match ev, chain with
  | EvDerive BTC _ _ _ _, BTC => true
  | EvDerive EVM _ _ _ _, EVM => true
  | _, _ => false
  end.

Definition is_cache_hit (ev : Ev) : bool :=
  match ev with
  | EvLog LogLog msg => String.eqb msg "Cache hit for fetchPortfolioValue"
  | _ => false
  end.

Definition is_call (ev : Ev) : bool :=
  match ev with
  | EvCall _ _ => true
  | _ => false
  end.

Definition is_callback (ev : Ev) : bool :=
  match ev with
  | EvCallback _ _ => true
  | _ => false
  end.

Definition is_success_callback (ev : Ev) : bool :=
  match ev with
  | EvCallback {| content := SuccessContent _ _ _ |} _ => true
  | _ => false
  end.

(** A callback that threw. *)
Definition is_thrown_callback (ev : Ev) : bool :=
  match ev with
  | EvCallback _ (Throw _) => true
  | _ => false
  end.

Definition count (f : Ev -> bool) (evs : list Ev) : nat :=
  length (List.filter f evs).

(** The [value] of every transaction handed to sign-and-send. *)
Definition sent_values (evs : list Ev) : list string :=
  flat_map (fun ev => match ev with
                      | EvSignAndSend _ request _ _ =>
                          [tx_value (transaction request)]
                      | _ => []
                      end) evs.

(** The log line of a cache hit. *)
Definition hit : Ev := EvLog LogLog "Cache hit for fetchPortfolioValue".

End Predicates.

(** [needle] occurs in [hay]. *)
Definition contains (needle hay : string) : Prop :=
  exists before after, hay = before +:+ needle +:+ after.

(** What the handler answers to a content that fails its type check. *)
Definition rejection : Response :=
  {| text := "Unable to process transfer request. Invalid content provided.";
     content := ErrorText "Invalid transfer content" |}.

Section Terminal.

Context {State Message KeyPair : Type}.


End Terminal.

End Trace.

(** ** A simulated host *)

Module Example.

Import Plugin.

(** The world is the clock, in milliseconds. The runtime composes a state
    at once; generation, derivation and signing take time and answer as
    given. *)
Definition host (settings : string -> option string)
  (generated : Result value) (derived : ChainKind -> Result Derived)
  (signed : Result SignResponse) : Host Z unit unit string :=
  {| getSetting := settings;
     Date_now := fun w => w;
     composeState := fun _ w => (Ok tt, w);
     updateRecentMessageState := fun s w => (Ok s, w);
     composeContext := fun _ _ => Ok "context";
     generateObject := fun _ _ w => (generated, (w + 2000)%Z);
     deriveAddressAndPublicKey := fun chain _ _ _ w => (derived chain, (w + 1000)%Z);
     KeyPair_fromString := fun s => Ok s;
     signAndSendBTCTransaction := fun _ _ w => (signed, (w + 5000)%Z);
     signAndSendEVMTransaction := fun _ _ w => (signed, (w + 5000)%Z) |}.

Definition configured (key : string) : option string :=
  if String.eqb key "NEAR_ADDRESS" then Some "alice.testnet"
  else if String.eqb key "NEAR_WALLET_SECRET_KEY" then Some "ed25519:secret"
  else None.

Definition without_secret_key (key : string) : option string :=
  if String.eqb key "NEAR_ADDRESS" then Some "alice.testnet" else None.

Definition unset (key : string) : option string := None.

Definition derives (chain : ChainKind) : Result Derived :=
  match chain with
  | BTC => Ok {| address := "tb1qsender"; publicKey := "02ab" |}
  | EVM => Ok {| address := "0xsender"; publicKey := "04cd" |}
  end.

Definition derivation_fails (chain : ChainKind) : Result Derived :=
  Throw (new_Error "fetch failed").

Definition derives_empty (chain : ChainKind) : Result Derived :=
  Ok {| address := ""; publicKey := "" |}.

Definition intent (recipient amount symbol : string) : value :=
  Obj [("recipient", Str recipient); ("amount", Str amount);
       ("symbol", Str symbol)].

Definition start {V : Type} : @St Z V := {| world := 0%Z; heap := [] |}.

(** A callback that takes the response and returns. *)
Definition quiet : Callback Z := fun _ w => (Ok tt, w).

(** A callback that throws whatever it is given. *)
Definition throwing : Callback Z :=
  fun _ w => (Throw (new_Error "callback failed"), w).

(** A callback that throws on a report of success and takes everything
    else. *)
Definition throwing_on_success : Callback Z :=
  fun response w =>
    match content response with
    | SuccessContent _ _ _ => (Throw (new_Error "callback failed"), w)
    | _ => (Ok tt, w)
    end.

(** One provider for [alice.testnet] has been constructed, nothing else. *)
Definition one_provider {V : Type} : @St Z V :=
  {| world := 0%Z;
     heap := [{| accountId := "alice.testnet"; cache := NodeCache.create 300 |}] |}.

Definition simulated (generated : Result value) (signed : Result SignResponse)
  : Host Z unit unit string :=
  host configured generated derives signed.

End Example.

(** ** Sequences of provider calls *)

Module Scenario.

Import Plugin.

Section Calls.

Context {World State Message KeyPair : Type}.

Abbreviation H := (Host World State Message KeyPair).
Abbreviation Mon := (M World State Message KeyPair MultiChain.Addresses).



End Calls.

End Scenario.

(** ** More ways to read a run *)

Module Observe.

Import Plugin.

Section Events.

Context {State Message KeyPair : Type}.

Abbreviation Ev := (Event State Message KeyPair).

Definition is_sign_and_send (ev : Ev) : bool :=
  match ev with
  | EvSignAndSend _ _ _ _ => true
  | _ => false
  end.

(** The first thing the handler does: [composeState] or
    [updateRecentMessageState]. *)
Definition is_state_call (ev : Ev) : bool :=
  match ev with
  | EvComposeState _ _ => true
  | EvUpdateRecentMessageState _ _ => true
  | _ => false
  end.

End Events.

(** The symbol the dispatcher routes to a chain kind, and the base-unit
    string the routine of that chain kind makes of an amount. *)
Definition symbol_of (chain : ChainKind) : string :=
  match chain with
  | BTC => "BTC"
  | EVM => "ETH"
  end.

Definition base_unit_value (chain : ChainKind) (amount : string) : string :=
  JsNumber.Number_toFixed
    (match chain with
     | BTC => parseBTC (JsNumber.Number amount)
     | EVM => parseETH (JsNumber.Number amount)
     end).

Section Heap.

Context {World V : Type}.

(** Every provider object has the cache its constructor gave it: a
    standard TTL of 300 seconds. *)
Definition standard_ttl (st : @St World V) : Prop :=
  forall i p, heap st !! i = Some p -> NodeCache.stdTTL (cache p) = 300%Z.

(** Nothing live is stored under [key] at [time]: no entry, or one whose
    deadline has passed. *)
Definition nothing_cached (c : NodeCache.Cache V) (time : Z) (key : string)
  : Prop :=
  match NodeCache.data c !! key with
  | None => True
  | Some w => NodeCache.t w <> 0%Z /\ (NodeCache.t w < time)%Z
  end.

End Heap.

End Observe.

(** ** More simulated settings *)

Module Fixtures.

Import Plugin.

(** Credentials are set and [NEAR_NETWORK] names a network the signer
    table does not have. *)
Definition on_devnet (key : string) : option string :=
  if String.eqb key "NEAR_NETWORK" then Some "devnet"
  else Example.configured key.

(** Credentials are set and [NEAR_NETWORK] is the empty string. *)
Definition on_blank_network (key : string) : option string :=
  if String.eqb key "NEAR_NETWORK" then Some ""
  else Example.configured key.

(** Credentials are set and [NEAR_NETWORK] is a name every object
    answers to. *)
Definition on_inherited_name (key : string) : option string :=
  if String.eqb key "NEAR_NETWORK" then Some "constructor"
  else Example.configured key.

(** Credentials are set and [NEAR_NETWORK] is mainnet. *)
Definition on_mainnet (key : string) : option string :=
  if String.eqb key "NEAR_NETWORK" then Some "mainnet"
  else Example.configured key.

(** A provider for [alice.testnet] whose cache holds [value] until
    [deadline]. *)
Definition cached_until {V : Type} (key : string) (value : V) (deadline : Z)
  (time : Z) : @St Z V :=
  {| world := time;
     heap := [{| accountId := "alice.testnet";
                 cache := {| NodeCache.stdTTL := 300%Z;
                             NodeCache.data :=
                               {[ key := {| NodeCache.v := value;
                                            NodeCache.t := deadline |} ]} |} |}] |}.

(** A host whose signer library throws when it is handed no
    configuration, without taking time, and derives as [Example.derives]
    does otherwise. *)
Definition strict_host (settings : string -> option string)
  (signed : Result SignResponse) : Host Z unit unit string :=
  {| getSetting := settings;
     Date_now := fun w => w;
     composeState := fun _ w => (Ok tt, w);
     updateRecentMessageState := fun s w => (Ok s, w);
     composeContext := fun _ _ => Ok "context";
     generateObject := fun _ _ w => (Ok Null, (w + 2000)%Z);
     deriveAddressAndPublicKey :=
       fun chain config _ _ w =>
         match config with
         | None => (Throw (new_TypeError "configuration is undefined"), w)
         | Some _ => (Example.derives chain, (w + 1000)%Z)
         end;
     KeyPair_fromString := fun s => Ok s;
     signAndSendBTCTransaction := fun _ _ w => (signed, (w + 5000)%Z);
     signAndSendEVMTransaction := fun _ _ w => (signed, (w + 5000)%Z) |}.

(** U+00A0, as the two bytes of its UTF-8 form. *)
Definition no_break_space : string :=
  String (ascii_of_nat 194) (String (ascii_of_nat 160) "").

End Fixtures.

(** * Properties *)

Import Plugin.

(** ** Running the monad: rewriting and automation *)

Lemma append_empty_r (s : string) : s +:+ "" = s.
Proof.
  induction s as [| c s IH].
  - reflexivity.
  - change (String c (s +:+ "") = String c s). now rewrite IH.
Qed.

Lemma falsy_truthy_None (o : option string) : falsy o = true -> truthy o = None.
Proof. unfold truthy. now intros ->. Qed.

Lemma truthy_Some (o : option string) (s : string) :
  truthy o = Some s -> o = Some s /\ s <> "".
Proof.
  unfold truthy, falsy. destruct o as [x |]; [| discriminate].
  destruct (String.eqb_spec x ""); [discriminate |].
  intros [= <-]. now split.
Qed.

Ltac unfold_monad :=
  unfold log, respond, derive, signAndSend;
  unfold bind, ret, throw, lift, try_catch, emit, external, now, read, write,
         alloc;
  cbv beta iota zeta.

Ltac unfold_monad_in H :=
  unfold log, respond, derive, signAndSend in H;
  unfold bind, ret, throw, lift, try_catch, emit, external, now, read, write,
         alloc in H;
  cbv beta iota zeta in H.

(** Decides the string comparisons between literals in the goal. *)
Ltac decide_eqb :=
  repeat match goal with
         | |- context [String.eqb ?a ?b] =>
             let v := eval vm_compute in (String.eqb a b) in
             match v with
             | true => change (String.eqb a b) with true
             | false => change (String.eqb a b) with false
             end
         end;
  cbv iota.

(** Splits the run in [H] at the first scrutinee that is still unknown. *)
Ltac split_run H :=
  match type of H with
  | context [match ?x with _ => _ end] =>
      lazymatch x with
      | context [match _ with _ => _ end] => fail
      | _ => destruct x eqn:?
      end
  | context [if ?x then _ else _] =>
      lazymatch x with
      | context [match _ with _ => _ end] => fail
      | context [if _ then _ else _] => fail
      | _ => destruct x eqn:?
      end
  end.

(** Follows the run in [H] through every branch it can take. *)
Ltac run_cases H :=
  cbv beta iota zeta in H;
  repeat (split_run H; cbv beta iota zeta in H;
          cbn [world heap accountId cache] in H);
  first [discriminate H | injection H as <- <- <-].

(** Settles what is known about the membership of an event in a trace, and
    which way a boolean test went. *)
Ltac trace_cases Hin :=
  simpl in Hin;
  repeat match goal with
         | H : _ \/ _ |- _ => destruct H
         | H : False |- _ => contradiction H
         | H : @eq (Event _ _ _) _ _ |- _ =>
             first [discriminate H | injection H as ?; subst]
         | H : negb ?b = _ |- _ => destruct b; try discriminate H; clear H
         end.

(** ** Amounts *)

(** The number model on values whose JavaScript results are well known. *)
Example Number_of_one_tenth :
  JsNumber.Number "0.1" = S754_finite false 7205759403792794 (-56).
Proof. vm_compute. reflexivity. Qed.

Example Number_rounds_to_even :
  JsNumber.Number "9007199254740993" = S754_finite false 4503599627370496 1.
Proof. vm_compute. reflexivity. Qed.

Example Number_of_text_is_NaN : JsNumber.Number "ten" = S754_nan.
Proof. vm_compute. reflexivity. Qed.

Example Number_toString_shortest :
  JsNumber.Number_toString (JsNumber.Number "0.30000000000000004")
  = "0.30000000000000004"
  /\ JsNumber.Number_toString (JsNumber.Number "0.1000000000000000055")
     = "0.1"
  /\ JsNumber.Number_toString (JsNumber.Number "123456789012345678901234")
     = "1.2345678901234569e+23"
  /\ JsNumber.Number_toString (JsNumber.Number "0.0000001") = "1e-7".
Proof. repeat split; vm_compute; reflexivity. Qed.

Example Number_toFixed_rounds_half_up :
  JsNumber.Number_toFixed (JsNumber.Number "2.5") = "3"
  /\ JsNumber.Number_toFixed (JsNumber.Number "0.4") = "0"
  /\ JsNumber.Number_toFixed (JsNumber.Number "999999999999999900000")
     = "999999999999999868928".
Proof. repeat split; vm_compute; reflexivity. Qed.

(** The two conversions the specification gives as examples come out
    exactly. *)
Example parseETH_one_and_a_half :
  JsNumber.Number_toFixed (parseETH (JsNumber.Number "1.5"))
  = "1500000000000000000".
Proof. vm_compute. reflexivity. Qed.

Example parseBTC_one_thousandth :
  JsNumber.Number_toFixed (parseBTC (JsNumber.Number "0.001")) = "100000".
Proof. vm_compute. reflexivity. Qed.

(** C1. The amount goes through [Number(amount)] before bignumber.js sees
    it and through [toNumber()] after: an ETH amount with 18 decimal places
    is rounded to a double on the way in, so [1.000000000000000001] ETH is
    sent as [1000000000000000000] wei where the exact product is
    [1000000000000000001]; and from 1000 ETH on the value is not rendered
    as an integer string at all, [toFixed] answering in exponent form. The
    last part shows the value in the transaction that [transferEth] hands
    to sign-and-send. *)
Theorem eth_amount_goes_through_doubles :
  JsNumber.Number_toFixed (parseETH (JsNumber.Number "1.000000000000000001"))
  = "1000000000000000000"
  /\ Spec.base_units 18 "1.000000000000000001" = Some "1000000000000000001"
  /\ JsNumber.Number_toFixed (parseETH (JsNumber.Number "1000")) = "1e+21"
  /\ Spec.base_units 18 "1000" = Some "1000000000000000000000"
  /\ Trace.sent_values
       (snd (MultiChain.transferEth
               (Example.simulated (Ok Null) (Ok (Success "0xhash")))
               "0xdest" "1.000000000000000001" Example.start))
     = ["1000000000000000000"].
Proof. repeat split; vm_compute; reflexivity. Qed.

(** ** Configuration *)

(** C10, as the code has it. Resolution is a total function of the
    settings. The network is [NEAR_NETWORK], or testnet when that is unset.
    The provider URL is the setting or a fixed default: for Bitcoin the
    mempool endpoint of mainnet when the network is mainnet and the
    testnet4 endpoint for every other network, for EVM the Sepolia endpoint
    whatever the network. The signer contract and the network id of the
    profile are attached when the network is mainnet or testnet; for any
    other network neither is attached. With every key absent the testnet
    defaults come out. *)
Theorem config_resolution_falls_back_to_defaults :
  forall (getSetting : string -> option string) (chain : ChainKind),
    let networkId := match getSetting "NEAR_NETWORK" with
                     | Some n => n
                     | None => "testnet"
                     end in
    let cfg := Spec.resolveChainConfig getSetting chain in
    providerUrl cfg
    = Some match getSetting (Spec.provider_url_key chain) with
           | Some url => url
           | None =>
               match chain with
               | BTC => if String.eqb networkId "mainnet"
                        then "https://mempool.space/api"
                        else "https://mempool.space/testnet4/api"
               | EVM => "https://sepolia.drpc.org"
               end
           end
    /\ (networkId = "mainnet" ->
        contract cfg = Some "v1.signer" /\ nearNetworkId cfg = Some "mainnet")
    /\ (networkId = "testnet" ->
        contract cfg = Some "v1.signer-prod.testnet"
        /\ nearNetworkId cfg = Some "testnet")
    /\ (networkId <> "mainnet" -> networkId <> "testnet" ->
        contract cfg = None /\ nearNetworkId cfg = None)
    /\ Spec.resolveChainConfig Example.unset BTC
       = {| nearNetworkId := Some "testnet";
            contract := Some "v1.signer-prod.testnet";
            network := Some "testnet";
            providerUrl := Some "https://mempool.space/testnet4/api" |}
    /\ Spec.resolveChainConfig Example.unset EVM
       = {| nearNetworkId := Some "testnet";
            contract := Some "v1.signer-prod.testnet";
            network := None;
            providerUrl := Some "https://sepolia.drpc.org" |}.
Proof.
  intros getSetting chain networkId cfg. subst networkId cfg.
  assert (Htable : forall n,
             (n = "mainnet" ->
              MultiChain.CHAIN_SIGNATURES_CONFIG n = Some ("mainnet", "v1.signer"))
             /\ (n = "testnet" ->
                 MultiChain.CHAIN_SIGNATURES_CONFIG n
                 = Some ("testnet", "v1.signer-prod.testnet"))
             /\ (n <> "mainnet" -> n <> "testnet" ->
                 MultiChain.CHAIN_SIGNATURES_CONFIG n = None)).
  { intros n. unfold MultiChain.CHAIN_SIGNATURES_CONFIG.
    repeat split.
    - now intros ->.
    - now intros ->.
    - intros Hm Ht.
      destruct (String.eqb_spec n "mainnet"); [contradiction |].
      destruct (String.eqb_spec n "testnet"); [contradiction |].
      reflexivity. }
  assert (Hcfg : forall c,
             contract (Spec.resolveChainConfig getSetting c)
             = snd <$> MultiChain.CHAIN_SIGNATURES_CONFIG
                         (nullish (getSetting "NEAR_NETWORK") "testnet")
             /\ nearNetworkId (Spec.resolveChainConfig getSetting c)
                = fst <$> MultiChain.CHAIN_SIGNATURES_CONFIG
                            (nullish (getSetting "NEAR_NETWORK") "testnet"))
    by (intros []; split; reflexivity).
  destruct (Hcfg chain) as [-> ->].
  change (match getSetting "NEAR_NETWORK" with
          | Some n => n
          | None => "testnet"
          end) with (nullish (getSetting "NEAR_NETWORK") "testnet").
  destruct (Htable (nullish (getSetting "NEAR_NETWORK") "testnet"))
    as (Hm & Ht & Ho).
  split.
  { destruct chain; cbn [Spec.resolveChainConfig providerUrl];
      unfold MultiChain.getBitcoinConfig, MultiChain.getEvmConfig;
      cbn [providerUrl Spec.provider_url_key];
      destruct (getSetting "BTC_PROVIDER_URL"), (getSetting "EVM_PROVIDER_URL");
      reflexivity. }
  split; [intros E; rewrite (Hm E); split; reflexivity |].
  split; [intros E; rewrite (Ht E); split; reflexivity |].
  split; [intros E1 E2; rewrite (Ho E1 E2); split; reflexivity |].
  split; reflexivity.
Qed.

Lemma config_resolution_falls_back_to_defaults_witness :
  (contract (Spec.resolveChainConfig Fixtures.on_mainnet BTC) = Some "v1.signer"
   /\ nearNetworkId (Spec.resolveChainConfig Fixtures.on_mainnet BTC)
      = Some "mainnet")
  /\ (contract (Spec.resolveChainConfig Fixtures.on_devnet EVM) = None
      /\ nearNetworkId (Spec.resolveChainConfig Fixtures.on_devnet EVM) = None).
Proof.
  split.
  - apply (proj1 (proj2 (config_resolution_falls_back_to_defaults
                           Fixtures.on_mainnet BTC))).
    reflexivity.
  - apply (proj1 (proj2 (proj2 (proj2
             (config_resolution_falls_back_to_defaults Fixtures.on_devnet EVM))))).
    + discriminate.
    + discriminate.
Defined.

(** C10, as stated, fails: with [NEAR_NETWORK] set to a name that is no
    network profile, or to the empty string, no signer contract and no
    network id are attached; and the EVM fallback endpoint is the same on
    mainnet as on testnet. *)
Lemma unknown_network_gets_no_signer_contract :
  contract (Spec.resolveChainConfig Fixtures.on_devnet BTC) = None
  /\ nearNetworkId (Spec.resolveChainConfig Fixtures.on_devnet BTC) = None
  /\ contract (Spec.resolveChainConfig Fixtures.on_blank_network EVM) = None
  /\ providerUrl (Spec.resolveChainConfig Fixtures.on_mainnet EVM)
     = providerUrl (Spec.resolveChainConfig Example.configured EVM)
  /\ providerUrl (Spec.resolveChainConfig Fixtures.on_mainnet EVM)
     = Some "https://sepolia.drpc.org".
Proof. repeat split. Qed.

(** ** The dispatcher *)

Section Dispatch.

Context {World State Message KeyPair : Type}.

Abbreviation H := (Host World State Message KeyPair).

(** C7. A symbol that is neither BTC nor ETH makes [transfer] throw an
    error that names the symbol; the world is left as it was and no signer
    primitive is called. *)
Theorem transfer_rejects_unsupported_symbol :
  forall (h : H) (symbol recipient amount : string)
         (st : @St World MultiChain.Addresses),
    symbol <> "BTC" -> symbol <> "ETH" ->
    MultiChain.transfer h symbol recipient amount st
    = (Throw (new_Error ("Unsupported symbol to transfer: " +:+ symbol)),
       st, [EvCall "transfer" [symbol; recipient; amount]])
    /\ Trace.count Trace.is_signer_call
         (snd (MultiChain.transfer h symbol recipient amount st)) = 0.
Proof.
  intros h symbol recipient amount st Hbtc Heth.
  assert (Hrun : MultiChain.transfer h symbol recipient amount st
                 = (Throw (new_Error ("Unsupported symbol to transfer: " +:+ symbol)),
                    st, [EvCall "transfer" [symbol; recipient; amount]])).
  { unfold MultiChain.transfer. unfold_monad.
    destruct (String.eqb_spec symbol "BTC"); [contradiction |].
    destruct (String.eqb_spec symbol "ETH"); [contradiction |].
    reflexivity. }
  split; [exact Hrun | now rewrite Hrun].
Qed.

Lemma multichain_transferBTC_unconfigured (h : H) (recipient amount : string)
  (st : @St World MultiChain.Addresses) :
  falsy (getSetting h "NEAR_ADDRESS") = true
  \/ falsy (getSetting h "NEAR_WALLET_SECRET_KEY") = true ->
  MultiChain.transferBTC h recipient amount st
  = (Throw (new_Error "NEAR wallet credentials not configured"), st,
     [EvCall "transferBTC" [recipient; amount]]).
Proof.
  intros Hmissing. unfold MultiChain.transferBTC. unfold_monad.
  destruct Hmissing as [Hm | Hm]; rewrite (falsy_truthy_None _ Hm).
  - reflexivity.
  - now destruct (truthy (getSetting h "NEAR_ADDRESS")).
Qed.

Lemma multichain_transferEth_unconfigured (h : H) (recipient amount : string)
  (st : @St World MultiChain.Addresses) :
  falsy (getSetting h "NEAR_ADDRESS") = true
  \/ falsy (getSetting h "NEAR_WALLET_SECRET_KEY") = true ->
  MultiChain.transferEth h recipient amount st
  = (Throw (new_Error "NEAR wallet credentials not configured"), st,
     [EvCall "transferEth" [recipient; amount]]).
Proof.
  intros Hmissing. unfold MultiChain.transferEth. unfold_monad.
  destruct Hmissing as [Hm | Hm]; rewrite (falsy_truthy_None _ Hm).
  - reflexivity.
  - now destruct (truthy (getSetting h "NEAR_ADDRESS")).
Qed.

Lemma btconly_transferBTC_unconfigured (h : H) (recipient amount : string)
  (st : @St World string) :
  falsy (getSetting h "NEAR_ADDRESS") = true
  \/ falsy (getSetting h "NEAR_WALLET_SECRET_KEY") = true ->
  BtcOnly.transferBTC h recipient amount st
  = (Throw (new_Error "BTC wallet credentials not configured"), st,
     [EvCall "transferBTC" [recipient; amount]]).
Proof.
  intros Hmissing. unfold BtcOnly.transferBTC. unfold_monad.
  destruct Hmissing as [Hm | Hm]; rewrite (falsy_truthy_None _ Hm).
  - reflexivity.
  - now destruct (truthy (getSetting h "NEAR_ADDRESS")).
Qed.

(** C8. With the account identifier or the secret key missing from the
    settings, a transfer throws the configuration error at once: the world
    is left as it was, and the only events are the marks of the routines
    entered, so neither derivation nor sign-and-send was called. This holds
    for the BTC and the ETH routine, for the dispatcher on either symbol,
    and for the BTC-only routine. *)
Theorem transfer_requires_credentials :
  forall (h : H) (recipient amount : string)
         (st : @St World MultiChain.Addresses) (st' : @St World string),
    falsy (getSetting h "NEAR_ADDRESS") = true
    \/ falsy (getSetting h "NEAR_WALLET_SECRET_KEY") = true ->
    MultiChain.transfer h "BTC" recipient amount st
    = (Throw (new_Error "NEAR wallet credentials not configured"), st,
       [EvCall "transfer" ["BTC"; recipient; amount];
        EvCall "transferBTC" [recipient; amount]])
    /\ MultiChain.transfer h "ETH" recipient amount st
       = (Throw (new_Error "NEAR wallet credentials not configured"), st,
          [EvCall "transfer" ["ETH"; recipient; amount];
           EvCall "transferEth" [recipient; amount]])
    /\ BtcOnly.transferBTC h recipient amount st'
       = (Throw (new_Error "BTC wallet credentials not configured"), st',
          [EvCall "transferBTC" [recipient; amount]])
    /\ Trace.count Trace.is_signer_call
         (snd (MultiChain.transfer h "BTC" recipient amount st)) = 0
    /\ Trace.count Trace.is_signer_call
         (snd (MultiChain.transfer h "ETH" recipient amount st)) = 0
    /\ Trace.count Trace.is_signer_call
         (snd (BtcOnly.transferBTC h recipient amount st')) = 0.
Proof.
  intros h recipient amount st st' Hmissing.
  assert (Hbtc : MultiChain.transfer h "BTC" recipient amount st
                 = (Throw (new_Error "NEAR wallet credentials not configured"), st,
                    [EvCall "transfer" ["BTC"; recipient; amount];
                     EvCall "transferBTC" [recipient; amount]])).
  { unfold MultiChain.transfer, bind at 1, emit at 1. decide_eqb.
    now rewrite multichain_transferBTC_unconfigured. }
  assert (Heth : MultiChain.transfer h "ETH" recipient amount st
                 = (Throw (new_Error "NEAR wallet credentials not configured"), st,
                    [EvCall "transfer" ["ETH"; recipient; amount];
                     EvCall "transferEth" [recipient; amount]])).
  { unfold MultiChain.transfer, bind at 1, emit at 1. decide_eqb.
    now rewrite multichain_transferEth_unconfigured. }
  pose proof (btconly_transferBTC_unconfigured h recipient amount st' Hmissing)
    as Honly.
  rewrite Hbtc, Heth, Honly. repeat split.
Qed.

End Dispatch.

Lemma transfer_rejects_unsupported_symbol_witness :
  MultiChain.transfer
    (Example.host Example.configured (Ok Null) Example.derives
                  (Ok (Success "hash")))
    "DOGE" "DH5yaieqoZN36fDVciNyRueRGvGLR3mr7L" "10" Example.start
  = (Throw (new_Error "Unsupported symbol to transfer: DOGE"), Example.start,
     [EvCall "transfer" ["DOGE"; "DH5yaieqoZN36fDVciNyRueRGvGLR3mr7L"; "10"]])
  /\ Trace.count Trace.is_signer_call
       (snd (MultiChain.transfer
               (Example.host Example.configured (Ok Null) Example.derives
                             (Ok (Success "hash")))
               "DOGE" "DH5yaieqoZN36fDVciNyRueRGvGLR3mr7L" "10" Example.start))
     = 0.
Proof.
  apply (transfer_rejects_unsupported_symbol
           (Example.host Example.configured (Ok Null) Example.derives
                         (Ok (Success "hash")))
           "DOGE" "DH5yaieqoZN36fDVciNyRueRGvGLR3mr7L" "10" Example.start);
    discriminate.
Defined.

Lemma transfer_requires_credentials_witness :
  falsy (Example.without_secret_key "NEAR_WALLET_SECRET_KEY") = true
  /\ MultiChain.transfer
       (Example.host Example.without_secret_key (Ok Null) Example.derives
                     (Ok (Success "hash")))
       "BTC" "tb1qdest" "0.001" Example.start
     = (Throw (new_Error "NEAR wallet credentials not configured"),
        Example.start,
        [EvCall "transfer" ["BTC"; "tb1qdest"; "0.001"];
         EvCall "transferBTC" ["tb1qdest"; "0.001"]]).
Proof.
  split; [reflexivity |].
  apply (transfer_requires_credentials
           (Example.host Example.without_secret_key (Ok Null) Example.derives
                         (Ok (Success "hash")))
           "tb1qdest" "0.001" Example.start Example.start).
  right. reflexivity.
Defined.

(** ** The cache *)

Section Cache.

Context {V : Type}.

Lemma cache_get_live (c : NodeCache.Cache V) (time : Z) (key : string)
  (w : NodeCache.Wrapped V) :
  NodeCache.data c !! key = Some w ->
  (NodeCache.t w = 0 \/ time <= NodeCache.t w)%Z ->
  NodeCache.get c time key = (Some (NodeCache.v w), c).
Proof.
  intros Hw Hlive. unfold NodeCache.get. rewrite Hw.
  destruct (Z.eqb_spec (NodeCache.t w) 0) as [Hz | Hz]; simpl.
  - reflexivity.
  - destruct (Z.ltb_spec (NodeCache.t w) time); [lia | reflexivity].
Qed.

Lemma cache_get_Some (c c' : NodeCache.Cache V) (time : Z) (key : string)
  (x : V) :
  NodeCache.get c time key = (Some x, c') ->
  c' = c /\
  exists w, NodeCache.data c !! key = Some w /\ NodeCache.v w = x /\
            (NodeCache.t w = 0 \/ time <= NodeCache.t w)%Z.
Proof.
  unfold NodeCache.get. destruct (NodeCache.data c !! key) as [w |] eqn:Hw;
    [| discriminate].
  destruct (Z.eqb_spec (NodeCache.t w) 0) as [Hz | Hz]; simpl.
  - intros [= <- <-]. split; [reflexivity |]. exists w. auto.
  - destruct (Z.ltb_spec (NodeCache.t w) time); [discriminate |].
    intros [= <- <-]. split; [reflexivity |]. exists w.
    split; [reflexivity |]. split; [reflexivity |]. right. lia.
Qed.

Lemma cache_get_ttl (c c' : NodeCache.Cache V) (time : Z) (key : string)
  (r : option V) :
  NodeCache.get c time key = (r, c') -> NodeCache.stdTTL c' = NodeCache.stdTTL c.
Proof.
  unfold NodeCache.get. destruct (NodeCache.data c !! key) as [w |].
  - destruct (_ && _); intros [= <- <-]; reflexivity.
  - intros [= <- <-]; reflexivity.
Qed.

Lemma cache_set_lookup (c : NodeCache.Cache V) (time : Z) (key : string)
  (x : V) :
  NodeCache.stdTTL c = 300%Z ->
  NodeCache.data (NodeCache.set c time key x) !! key
  = Some {| NodeCache.v := x; NodeCache.t := (time + 300 * 1000)%Z |}.
Proof.
  intros Httl. unfold NodeCache.set. rewrite Httl. simpl.
  apply lookup_insert_eq.
Qed.

Lemma cache_get_fresh (time : Z) (key : string) :
  NodeCache.get (@NodeCache.create V 300) time key
  = (None, NodeCache.create 300).
Proof. unfold NodeCache.get, NodeCache.create. simpl. now rewrite lookup_empty. Qed.

End Cache.

Lemma provider_eta {V : Type} (p : Provider V) :
  {| accountId := accountId p; cache := cache p |} = p.
Proof. now destruct p. Qed.

Lemma state_eta {World V : Type} (st : @St World V) :
  {| world := world st; heap := heap st |} = st.
Proof. now destruct st. Qed.

(** ** The provider *)

Section Provider.

Context {World State Message KeyPair : Type}.

Abbreviation H := (Host World State Message KeyPair).
Abbreviation Ev := (Event State Message KeyPair).

Lemma multichain_cached_address_hit (h : H) (this : nat)
  (p : Provider MultiChain.Addresses) (st : @St World MultiChain.Addresses)
  (w : NodeCache.Wrapped MultiChain.Addresses) :
  heap st !! this = Some p ->
  NodeCache.data (cache p) !! ("derived-addresses-" +:+ accountId p) = Some w ->
  (NodeCache.t w = 0 \/ Date_now h (world st) <= NodeCache.t w)%Z ->
  MultiChain.getDerivedAddress h this st = (Ok (Some (NodeCache.v w)), st, [Trace.hit]).
Proof.
  intros Hp Hw Hlive.
  unfold MultiChain.getDerivedAddress, cache_get. unfold_monad.
  rewrite Hp. cbv beta iota. rewrite Hp. cbv beta iota.
  rewrite (cache_get_live _ _ _ _ Hw Hlive). cbv beta iota.
  rewrite provider_eta, (list_insert_id _ _ _ Hp), state_eta.
  reflexivity.
Qed.

Lemma multichain_success_is_cached (h : H) (this : nat)
  (p : Provider MultiChain.Addresses) (st st1 : @St World MultiChain.Addresses)
  (evs1 : list Ev) (addrs : MultiChain.Addresses) :
  heap st !! this = Some p ->
  NodeCache.stdTTL (cache p) = 300%Z ->
  MultiChain.getDerivedAddress h this st = (Ok (Some addrs), st1, evs1) ->
  exists p1 w,
    heap st1 !! this = Some p1 /\ accountId p1 = accountId p /\
    NodeCache.data (cache p1) !! ("derived-addresses-" +:+ accountId p) = Some w /\
    NodeCache.v w = addrs /\
    (Trace.count Trace.is_cache_hit evs1 = 0 ->
     NodeCache.t w = (Date_now h (world st1) + 300 * 1000)%Z).
Proof.
  intros Hp Httl Hrun.
  pose proof (lookup_lt_Some _ _ _ Hp) as Hlt.
  unfold MultiChain.getDerivedAddress, cache_get, cache_set in Hrun.
  unfold_monad_in Hrun.
  rewrite Hp in Hrun. cbv beta iota in Hrun. rewrite Hp in Hrun.
  cbv beta iota in Hrun.
  destruct (NodeCache.get (cache p) (Date_now h (world st))
              ("derived-addresses-" +:+ accountId p)) as [[x |] c'] eqn:Hget;
    cbv beta iota in Hrun.
  - injection Hrun as <- <- <-.
    apply cache_get_Some in Hget as [-> (w & Hw & Hv & _)].
    exists {| accountId := accountId p; cache := cache p |}, w.
    cbn [heap]. rewrite list_lookup_insert_eq by exact Hlt.
    repeat split; try assumption. discriminate.
  - destruct (deriveAddressAndPublicKey h BTC _ _ _ _) as [[b | e] w1] eqn:Hb;
      cbv beta iota zeta in Hrun; [| discriminate].
    cbn [world heap] in Hrun.
    destruct (deriveAddressAndPublicKey h EVM _ _ _ _) as [[a | e] w2] eqn:Ha;
      cbv beta iota zeta in Hrun; [| discriminate].
    cbn [world heap] in Hrun.
    rewrite list_lookup_insert_eq in Hrun by exact Hlt.
    cbv beta iota zeta in Hrun. cbn [world heap accountId cache] in Hrun.
    injection Hrun as <- <- <-.
    eexists _, _. cbn [heap world].
    rewrite list_lookup_insert_eq by (rewrite length_insert; exact Hlt).
    split; [reflexivity |]. split; [reflexivity |]. cbn [cache].
    rewrite cache_set_lookup
      by (rewrite (cache_get_ttl _ _ _ _ _ Hget); exact Httl).
    split; [reflexivity |]. split; reflexivity.
Qed.

Lemma multichain_cached_address_is_reused_within_ttl (h : H) (this : nat)
  (p : Provider MultiChain.Addresses)
  (st st1 : @St World MultiChain.Addresses) (evs1 : list Ev)
  (addrs : MultiChain.Addresses) :
  heap st !! this = Some p ->
  NodeCache.stdTTL (cache p) = 300%Z ->
  MultiChain.getDerivedAddress h this st = (Ok (Some addrs), st1, evs1) ->
  exists deadline : Z,
    (Trace.count Trace.is_cache_hit evs1 = 0 ->
     deadline = (Date_now h (world st1) + 300 * 1000)%Z)
    /\ forall st2 : @St World MultiChain.Addresses,
         heap st2 !! this = heap st1 !! this ->
         (Date_now h (world st2) <= deadline)%Z ->
         MultiChain.getDerivedAddress h this st2
         = (Ok (Some addrs), st2, [Trace.hit]).
Proof.
  intros Hp Httl Hrun.
  destruct (multichain_success_is_cached h this p st st1 evs1 addrs Hp Httl Hrun)
    as (p1 & w & Hp1 & Hacc & Hw & Hv & Ht).
  exists (NodeCache.t w). split; [exact Ht |].
  intros st2 Hsame Hnow. rewrite Hp1 in Hsame. rewrite <- Hacc in Hw.
  rewrite (multichain_cached_address_hit h this p1 st2 w Hsame Hw)
    by (right; exact Hnow).
  now rewrite Hv.
Qed.

(** The BTC-only provider tests the cached string for truth, so that an
    empty address would not count as cached; a non-empty one is reused in
    the same way. *)
Lemma btconly_cached_address_hit (h : H) (this : nat) (p : Provider string)
  (st : @St World string) (w : NodeCache.Wrapped string) :
  heap st !! this = Some p ->
  NodeCache.data (cache p) !! ("derived-address-bitcoin-" +:+ accountId p)
  = Some w ->
  (NodeCache.t w = 0 \/ Date_now h (world st) <= NodeCache.t w)%Z ->
  NodeCache.v w <> "" ->
  BtcOnly.getDerivedAddress h this st
  = (Ok (Some (NodeCache.v w)), st, [Trace.hit]).
Proof.
  intros Hp Hw Hlive Hne.
  unfold BtcOnly.getDerivedAddress, cache_get. unfold_monad.
  rewrite Hp. cbv beta iota. rewrite Hp. cbv beta iota.
  rewrite (cache_get_live _ _ _ _ Hw Hlive). cbv beta iota.
  destruct (String.eqb_spec (NodeCache.v w) ""); [contradiction |].
  rewrite provider_eta, (list_insert_id _ _ _ Hp), state_eta.
  reflexivity.
Qed.

Lemma btconly_success_is_cached (h : H) (this : nat) (p : Provider string)
  (st st1 : @St World string) (evs1 : list Ev) (addr : string) :
  heap st !! this = Some p ->
  NodeCache.stdTTL (cache p) = 300%Z ->
  BtcOnly.getDerivedAddress h this st = (Ok (Some addr), st1, evs1) ->
  exists p1 w,
    heap st1 !! this = Some p1 /\ accountId p1 = accountId p /\
    NodeCache.data (cache p1) !! ("derived-address-bitcoin-" +:+ accountId p)
    = Some w /\
    NodeCache.v w = addr /\
    (Trace.count Trace.is_cache_hit evs1 = 0 ->
     NodeCache.t w = (Date_now h (world st1) + 300 * 1000)%Z).
Proof.
  intros Hp Httl Hrun.
  pose proof (lookup_lt_Some _ _ _ Hp) as Hlt.
  assert (Hmiss : forall c' x,
             NodeCache.stdTTL c' = 300%Z ->
             BtcOnly.derive_and_cache h this p
               ("derived-address-bitcoin-" +:+ accountId p)
               {| world := world st;
                  heap := <[this := {| accountId := accountId p; cache := c' |}]>
                            (heap st) |}
             = (Ok x, st1, evs1) ->
             exists p1 w,
               heap st1 !! this = Some p1 /\ accountId p1 = accountId p /\
               NodeCache.data (cache p1)
                 !! ("derived-address-bitcoin-" +:+ accountId p) = Some w /\
               Some (NodeCache.v w) = x /\
               (Trace.count Trace.is_cache_hit evs1 = 0 ->
                NodeCache.t w = (Date_now h (world st1) + 300 * 1000)%Z)).
  { intros c' x Hc' Hd.
    unfold BtcOnly.derive_and_cache, cache_set in Hd. unfold_monad_in Hd.
    cbn [world heap] in Hd.
    destruct (deriveAddressAndPublicKey h BTC _ _ _ _) as [[d | e] w1];
      cbv beta iota zeta in Hd; [| discriminate].
    cbn [world heap] in Hd.
    rewrite list_lookup_insert_eq in Hd by exact Hlt.
    cbv beta iota zeta in Hd. cbn [world heap accountId cache] in Hd.
    injection Hd as <- <- <-.
    eexists _, _. cbn [heap world].
    rewrite list_lookup_insert_eq by (rewrite length_insert; exact Hlt).
    split; [reflexivity |]. split; [reflexivity |]. cbn [cache].
    rewrite cache_set_lookup by exact Hc'.
    split; [reflexivity |]. split; reflexivity. }
  unfold BtcOnly.getDerivedAddress, cache_get in Hrun.
  unfold bind at 1, read at 1, try_catch in Hrun.
  rewrite Hp in Hrun. cbv beta iota in Hrun.
  unfold bind at 1, bind at 1, read at 1 in Hrun. rewrite Hp in Hrun.
  cbv beta iota in Hrun. unfold bind at 1, now at 1 in Hrun.
  cbv beta iota in Hrun.
  destruct (NodeCache.get (cache p) (Date_now h (world st))
              ("derived-address-bitcoin-" +:+ accountId p)) as [[x |] c'] eqn:Hget;
    unfold bind at 1, write at 1, ret at 1 in Hrun;
    cbv beta iota zeta in Hrun; cbn [world heap] in Hrun.
  - apply cache_get_Some in Hget as [-> (w & Hw & Hv & _)].
    destruct (String.eqb_spec x "") as [-> | Hne].
    + destruct (BtcOnly.derive_and_cache h this p _ _) as [[[y | e] s1] e1] eqn:Hd;
        cbv beta iota zeta in Hrun.
      * injection Hrun as -> -> <-.
        destruct (Hmiss _ _ Httl Hd) as (p1 & w' & H1 & H2 & H3 & H4 & H5).
        exists p1, w'. injection H4 as H4. cbn [app]. auto.
      * unfold_monad_in Hrun. discriminate.
    + unfold_monad_in Hrun. injection Hrun as <- <- <-.
      exists {| accountId := accountId p; cache := cache p |}, w.
      cbn [heap]. rewrite list_lookup_insert_eq by exact Hlt.
      repeat split; try assumption. discriminate.
  - destruct (BtcOnly.derive_and_cache h this p _ _) as [[[y | e] s1] e1] eqn:Hd;
      cbv beta iota zeta in Hrun.
    + injection Hrun as -> -> <-.
      destruct (Hmiss _ _ (eq_trans (cache_get_ttl _ _ _ _ _ Hget) Httl) Hd)
        as (p1 & w' & H1 & H2 & H3 & H4 & H5).
      exists p1, w'. injection H4 as H4. cbn [app]. auto.
    + unfold_monad_in Hrun. discriminate.
Qed.

Lemma btconly_cached_address_is_reused_within_ttl (h : H) (this : nat)
  (p : Provider string) (st st1 : @St World string) (evs1 : list Ev)
  (addr : string) :
  heap st !! this = Some p ->
  NodeCache.stdTTL (cache p) = 300%Z ->
  BtcOnly.getDerivedAddress h this st = (Ok (Some addr), st1, evs1) ->
  addr <> "" ->
  exists deadline : Z,
    (Trace.count Trace.is_cache_hit evs1 = 0 ->
     deadline = (Date_now h (world st1) + 300 * 1000)%Z)
    /\ forall st2 : @St World string,
         heap st2 !! this = heap st1 !! this ->
         (Date_now h (world st2) <= deadline)%Z ->
         BtcOnly.getDerivedAddress h this st2 = (Ok (Some addr), st2, [Trace.hit]).
Proof.
  intros Hp Httl Hrun Hne.
  destruct (btconly_success_is_cached h this p st st1 evs1 addr Hp Httl Hrun)
    as (p1 & w & Hp1 & Hacc & Hw & Hv & Ht).
  exists (NodeCache.t w). split; [exact Ht |].
  intros st2 Hsame Hnow. rewrite Hp1 in Hsame. rewrite <- Hacc in Hw.
  rewrite (btconly_cached_address_hit h this p1 st2 w Hsame Hw)
    by (try (right; exact Hnow); now rewrite Hv).
  now rewrite Hv.
Qed.

(** C3, as the code has it. Once [getDerivedAddress] has returned
    addresses, they are cached until a deadline, which is 300 seconds
    after the call when the call derived them; any later call on the same
    provider at a time up to that deadline returns the same addresses,
    leaves the world as it is and produces no event but the cache-hit log
    line: no derivation call. In the BTC-only sources the same holds of an
    address that is not the empty string, the only one the provider's test
    of the cached value lets through. *)
Theorem cached_address_is_reused_within_ttl :
  forall (h : H) (this : nat),
    (forall (p : Provider MultiChain.Addresses)
            (st st1 : @St World MultiChain.Addresses) (evs1 : list Ev)
            (addrs : MultiChain.Addresses),
        heap st !! this = Some p ->
        NodeCache.stdTTL (cache p) = 300%Z ->
        MultiChain.getDerivedAddress h this st = (Ok (Some addrs), st1, evs1) ->
        exists deadline : Z,
          (Trace.count Trace.is_cache_hit evs1 = 0 ->
           deadline = (Date_now h (world st1) + 300 * 1000)%Z)
          /\ forall st2 : @St World MultiChain.Addresses,
               heap st2 !! this = heap st1 !! this ->
               (Date_now h (world st2) <= deadline)%Z ->
               MultiChain.getDerivedAddress h this st2
               = (Ok (Some addrs), st2, [Trace.hit])
               /\ Trace.count Trace.is_signer_call
                    (snd (MultiChain.getDerivedAddress h this st2)) = 0)
    /\ (forall (p : Provider string) (st st1 : @St World string)
               (evs1 : list Ev) (addr : string),
           heap st !! this = Some p ->
           NodeCache.stdTTL (cache p) = 300%Z ->
           BtcOnly.getDerivedAddress h this st = (Ok (Some addr), st1, evs1) ->
           addr <> "" ->
           exists deadline : Z,
             (Trace.count Trace.is_cache_hit evs1 = 0 ->
              deadline = (Date_now h (world st1) + 300 * 1000)%Z)
             /\ forall st2 : @St World string,
                  heap st2 !! this = heap st1 !! this ->
                  (Date_now h (world st2) <= deadline)%Z ->
                  BtcOnly.getDerivedAddress h this st2
                  = (Ok (Some addr), st2, [Trace.hit])
                  /\ Trace.count Trace.is_signer_call
                       (snd (BtcOnly.getDerivedAddress h this st2)) = 0).
Proof.
  intros h this. split.
  - intros p st st1 evs1 addrs Hp Httl Hrun.
    destruct (multichain_cached_address_is_reused_within_ttl
                h this p st st1 evs1 addrs Hp Httl Hrun)
      as (deadline & Hdeadline & Hreuse).
    exists deadline. split; [exact Hdeadline |].
    intros st2 Hsame Hnow. rewrite (Hreuse st2 Hsame Hnow).
    split; reflexivity.
  - intros p st st1 evs1 addr Hp Httl Hrun Hne.
    destruct (btconly_cached_address_is_reused_within_ttl
                h this p st st1 evs1 addr Hp Httl Hrun Hne)
      as (deadline & Hdeadline & Hreuse).
    exists deadline. split; [exact Hdeadline |].
    intros st2 Hsame Hnow. rewrite (Hreuse st2 Hsame Hnow).
    split; reflexivity.
Qed.

(** C6. [getDerivedAddress] never throws, and when a derivation call it
    made has failed, it has logged the error and returns [null]; the same
    holds in the BTC-only sources. *)
Theorem derivation_failure_is_logged_and_null :
  forall (h : H) (this : nat),
    (forall (st st' : @St World MultiChain.Addresses)
            (r : Result (option MultiChain.Addresses)) (evs : list Ev),
        MultiChain.getDerivedAddress h this st = (r, st', evs) ->
        (exists a, r = Ok a)
        /\ forall chain config account path e,
             In (EvDerive chain config account path (Throw e)) evs ->
             r = Ok None
             /\ In (EvLog LogError ("Error in derived address provider: " +:+
                                    Error_toString e)) evs)
    /\ (forall (st st' : @St World string) (r : Result (option string))
               (evs : list Ev),
           BtcOnly.getDerivedAddress h this st = (r, st', evs) ->
           (exists a, r = Ok a)
           /\ forall chain config account path e,
                In (EvDerive chain config account path (Throw e)) evs ->
                r = Ok None
                /\ In (EvLog LogError ("Error in derived address provider: " +:+
                                       Error_toString e)) evs).
Proof.
  intros h this. split.
  - intros st st' r evs Hrun.
    unfold MultiChain.getDerivedAddress, cache_get, cache_set in Hrun.
    unfold_monad_in Hrun.
    run_cases Hrun;
      (split; [eexists; reflexivity |]);
      intros chain config account path e0 Hin; trace_cases Hin;
      (split; [reflexivity | simpl; auto 10]).
  - intros st st' r evs Hrun.
    unfold BtcOnly.getDerivedAddress, BtcOnly.derive_and_cache,
      cache_get, cache_set in Hrun.
    unfold_monad_in Hrun.
    run_cases Hrun;
      (split; [eexists; reflexivity |]);
      intros chain config account path e0 Hin; trace_cases Hin;
      (split; [reflexivity | simpl; auto 10]).
Qed.




End Provider.

(** ** The action handler *)

Lemma append_assoc (a b c : string) : (a +:+ b) +:+ c = a +:+ (b +:+ c).
Proof.
  induction a as [| x a IH].
  - reflexivity.
  - change (String x ((a +:+ b) +:+ c) = String x (a +:+ (b +:+ c))).
    now rewrite IH.
Qed.

Lemma contains_end (m : string) : Trace.contains m m.
Proof. exists "", "". now rewrite append_empty_r. Qed.

Lemma contains_skip (m p s : string) :
  Trace.contains m s -> Trace.contains m (p +:+ s).
Proof.
  intros (before & after & ->). exists (p +:+ before), after.
  now rewrite append_assoc.
Qed.

Ltac skip_to_needle :=
  first [apply contains_end | apply contains_skip; skip_to_needle].

Ltac find_in_text :=
  unfold Error_toString, new_Error; cbn [name message]; decide_eqb;
  skip_to_needle.

Section Handler.

Context {World State Message KeyPair : Type}.

Abbreviation H := (Host World State Message KeyPair).
Abbreviation Ev := (Event State Message KeyPair).

(** C9, as the code has it. When a sign-and-send call made while handling
    a transfer was answered with [{ success: false, errorMessage: m }] and
    a callback is supplied, the handler makes exactly one callback, as the
    last thing it does; the text handed over contains [m], and no callback
    reports success. The handler returns [false] when that callback
    returns, and throws what the callback threw when it throws. *)
Theorem signer_failure_is_reported :
  forall (h : H) (message : Message) (state : option State)
         (f : Callback World)
         (st st' : @St World MultiChain.Addresses) (r : Result bool)
         (evs : list Ev) chain request key (m : string),
    MultiChain.handler h message state (Some f) st = (r, st', evs) ->
    In (EvSignAndSend chain request key (Ok (Failure m))) evs ->
    Trace.count Trace.is_callback evs = 1
    /\ Trace.count Trace.is_success_callback evs = 0
    /\ exists response answer,
         last evs = Some (EvCallback response answer)
         /\ Trace.contains m (text response)
         /\ r = match answer with
                | Ok _ => Ok false
                | Throw e => Throw e
                end.
Proof.
  intros h message state f st st' r evs chain request key m Hrun Hin.
  unfold MultiChain.handler, MultiChain.transfer, MultiChain.transferBTC,
    MultiChain.transferEth in Hrun.
  unfold_monad_in Hrun.
  run_cases Hrun; trace_cases Hin;
    (split; [reflexivity |]); (split; [reflexivity |]);
    (do 2 eexists; split; [reflexivity |]; split; [find_in_text | reflexivity]).
Qed.

Lemma isTransferContent_true (content : value) :
  MultiChain.isTransferContent content = Ok true ->
  String.eqb (typeof (field content "recipient")) "string" &&
  (String.eqb (typeof (field content "amount")) "string" ||
   String.eqb (typeof (field content "amount")) "number") &&
  String.eqb (typeof (field content "symbol")) "string" = true.
Proof.
  unfold MultiChain.isTransferContent, field.
  destruct content; cbn [get]; try discriminate; now intros [= ->].
Qed.






(** C5, as the code has it. The handler enters the dispatcher only with a
    content whose recipient is a string, whose amount is a string or a
    number and whose symbol is a string, whichever string. With a content
    that fails this check neither the dispatcher is entered nor a signer
    primitive called; when a callback is supplied the rejection is handed
    to it, as the one callback and the last thing the handler does, and
    the handler returns [false] (it throws what the callback threw when
    the callback throws); without a callback it returns [false]. *)
Theorem dispatch_only_after_type_check :
  forall (h : H) (message : Message) (state : option State)
         (callback : option (Callback World))
         (st st' : @St World MultiChain.Addresses) (r : Result bool)
         (evs : list Ev) context schema content,
    MultiChain.handler h message state callback st = (r, st', evs) ->
    In (EvGenerateObject context schema (Ok content)) evs ->
    (Trace.count Trace.is_call evs <> 0 ->
     String.eqb (typeof (field content "recipient")) "string" &&
     (String.eqb (typeof (field content "amount")) "string" ||
      String.eqb (typeof (field content "amount")) "number") &&
     String.eqb (typeof (field content "symbol")) "string" = true)
    /\ (MultiChain.isTransferContent content = Ok false ->
        Trace.count Trace.is_call evs = 0
        /\ Trace.count Trace.is_signer_call evs = 0
        /\ match callback with
           | Some _ =>
               Trace.count Trace.is_callback evs = 1
               /\ exists answer,
                    last evs = Some (EvCallback Trace.rejection answer)
                    /\ r = match answer with
                           | Ok _ => Ok false
                           | Throw e => Throw e
                           end
           | None => Trace.count Trace.is_callback evs = 0 /\ r = Ok false
           end).
Proof.
  intros h message state callback st st' r evs context schema content Hrun Hin.
  unfold MultiChain.handler, MultiChain.transfer, MultiChain.transferBTC,
    MultiChain.transferEth in Hrun.
  unfold_monad_in Hrun.
  run_cases Hrun; trace_cases Hin;
    (split;
     [ intros Hcall; first [now contradiction Hcall
                           | now apply isTransferContent_true]
     | intros Hcheck;
       first [ congruence
             | split; [reflexivity |]; split; [reflexivity |];
               first [ split; reflexivity
                     | split; [reflexivity |]; eexists; split; reflexivity ] ] ]).
Qed.

End Handler.


(** ** The properties at work on the simulated host *)

(** An empty derived address is not reused by the BTC-only provider: the
    second call derives again. *)
Example btconly_empty_address_is_derived_again :
  Trace.count (Trace.is_derive BTC)
    (snd (bind (BtcOnly.getDerivedAddress
                  (Example.host Example.configured (Ok Null)
                                Example.derives_empty (Ok (Success "hash"))) 0)
               (fun _ => BtcOnly.getDerivedAddress
                  (Example.host Example.configured (Ok Null)
                                Example.derives_empty (Ok (Success "hash"))) 0)
               Example.one_provider))
  = 2.
Proof. vm_compute. reflexivity. Qed.

(** C3, as stated, fails in the BTC-only sources: a first call that
    succeeds with the empty string as address is followed, one second
    later and on the same provider, by a call that logs no cache hit and
    calls the derivation again. *)
Lemma btconly_empty_address_is_not_reused :
  fst (fst (BtcOnly.getDerivedAddress
              (Example.host Example.configured (Ok Null)
                            Example.derives_empty (Ok (Success "hash")))
              0 Example.one_provider))
  = Ok (Some "")
  /\ world (snd (fst (BtcOnly.getDerivedAddress
                        (Example.host Example.configured (Ok Null)
                                      Example.derives_empty (Ok (Success "hash")))
                        0 Example.one_provider)))
     = 1000%Z
  /\ Trace.count Trace.is_cache_hit
       (snd (BtcOnly.getDerivedAddress
               (Example.host Example.configured (Ok Null)
                             Example.derives_empty (Ok (Success "hash")))
               0
               (snd (fst (BtcOnly.getDerivedAddress
                            (Example.host Example.configured (Ok Null)
                                          Example.derives_empty
                                          (Ok (Success "hash")))
                            0 Example.one_provider)))))
     = 0
  /\ Trace.count Trace.is_signer_call
       (snd (BtcOnly.getDerivedAddress
               (Example.host Example.configured (Ok Null)
                             Example.derives_empty (Ok (Success "hash")))
               0
               (snd (fst (BtcOnly.getDerivedAddress
                            (Example.host Example.configured (Ok Null)
                                          Example.derives_empty
                                          (Ok (Success "hash")))
                            0 Example.one_provider)))))
     = 1.
Proof. repeat split; vm_compute; reflexivity. Qed.

Lemma cached_address_is_reused_within_ttl_witness :
  (exists deadline : Z,
     (Trace.count Trace.is_cache_hit
        (snd (MultiChain.getDerivedAddress
                (Example.simulated (Ok Null) (Ok (Success "hash"))) 0
                Example.one_provider)) = 0 ->
      deadline = (2000 + 300 * 1000)%Z)
     /\ forall st2 : @St Z MultiChain.Addresses,
          heap st2 !! 0
          = heap (snd (fst (MultiChain.getDerivedAddress
                              (Example.simulated (Ok Null) (Ok (Success "hash")))
                              0 Example.one_provider))) !! 0 ->
          (world st2 <= deadline)%Z ->
          MultiChain.getDerivedAddress
            (Example.simulated (Ok Null) (Ok (Success "hash"))) 0 st2
          = (Ok (Some {| MultiChain.btc := "tb1qsender";
                         MultiChain.evm := "0xsender" |}),
             st2, [Trace.hit])
          /\ Trace.count Trace.is_signer_call
               (snd (MultiChain.getDerivedAddress
                       (Example.simulated (Ok Null) (Ok (Success "hash")))
                       0 st2)) = 0)
  /\ (exists deadline : Z,
        (Trace.count Trace.is_cache_hit
           (snd (BtcOnly.getDerivedAddress
                   (Example.simulated (Ok Null) (Ok (Success "hash"))) 0
                   Example.one_provider)) = 0 ->
         deadline = (1000 + 300 * 1000)%Z)
        /\ forall st2 : @St Z string,
             heap st2 !! 0
             = heap (snd (fst (BtcOnly.getDerivedAddress
                                 (Example.simulated (Ok Null)
                                                    (Ok (Success "hash")))
                                 0 Example.one_provider))) !! 0 ->
             (world st2 <= deadline)%Z ->
             BtcOnly.getDerivedAddress
               (Example.simulated (Ok Null) (Ok (Success "hash"))) 0 st2
             = (Ok (Some "tb1qsender"), st2, [Trace.hit])
             /\ Trace.count Trace.is_signer_call
                  (snd (BtcOnly.getDerivedAddress
                          (Example.simulated (Ok Null) (Ok (Success "hash")))
                          0 st2)) = 0).
Proof.
  split.
  - refine (proj1 (cached_address_is_reused_within_ttl
                     (Example.simulated (Ok Null) (Ok (Success "hash"))) 0)
              {| accountId := "alice.testnet"; cache := NodeCache.create 300 |}
              Example.one_provider
              (snd (fst (MultiChain.getDerivedAddress
                           (Example.simulated (Ok Null) (Ok (Success "hash")))
                           0 Example.one_provider)))
              (snd (MultiChain.getDerivedAddress
                      (Example.simulated (Ok Null) (Ok (Success "hash")))
                      0 Example.one_provider))
              {| MultiChain.btc := "tb1qsender"; MultiChain.evm := "0xsender" |}
              _ _ _).
    + reflexivity.
    + reflexivity.
    + vm_compute. reflexivity.
  - refine (proj2 (cached_address_is_reused_within_ttl
                     (Example.simulated (Ok Null) (Ok (Success "hash"))) 0)
              {| accountId := "alice.testnet"; cache := NodeCache.create 300 |}
              Example.one_provider
              (snd (fst (BtcOnly.getDerivedAddress
                           (Example.simulated (Ok Null) (Ok (Success "hash")))
                           0 Example.one_provider)))
              (snd (BtcOnly.getDerivedAddress
                      (Example.simulated (Ok Null) (Ok (Success "hash")))
                      0 Example.one_provider))
              "tb1qsender"
              _ _ _ _).
    + reflexivity.
    + reflexivity.
    + vm_compute. reflexivity.
    + discriminate.
Defined.

Lemma derivation_failure_is_logged_and_null_witness :
  fst (fst (MultiChain.getDerivedAddress
              (Example.host Example.configured (Ok Null)
                            Example.derivation_fails (Ok (Success "hash")))
              0 Example.one_provider))
  = Ok None
  /\ In (EvLog LogError "Error in derived address provider: Error: fetch failed")
        (snd (MultiChain.getDerivedAddress
                (Example.host Example.configured (Ok Null)
                              Example.derivation_fails (Ok (Success "hash")))
                0 Example.one_provider)).
Proof.
  apply (proj2
           (proj1 (derivation_failure_is_logged_and_null
                     (Example.host Example.configured (Ok Null)
                                   Example.derivation_fails
                                   (Ok (Success "hash"))) 0)
                  Example.one_provider _ _ _ eq_refl)
           BTC
           (Some (MultiChain.getBitcoinConfig Example.configured))
           "alice.testnet" "bitcoin-1" (new_Error "fetch failed")).
  vm_compute. left. reflexivity.
Defined.

(** C9, as stated, fails: the signer answers [{ success: false,
    errorMessage: "insufficient funds" }], the handler hands the error to
    the callback, the callback throws, and the handler throws what the
    callback threw instead of returning [false]. *)
Lemma handler_raises_when_the_error_callback_throws :
  fst (fst (MultiChain.handler
              (Example.simulated (Ok (Example.intent "tb1qdest" "0.001" "BTC"))
                                 (Ok (Failure "insufficient funds")))
              tt None (Some Example.throwing) Example.start))
  = Throw (new_Error "callback failed")
  /\ Trace.count Observe.is_sign_and_send
       (snd (MultiChain.handler
               (Example.simulated (Ok (Example.intent "tb1qdest" "0.001" "BTC"))
                                  (Ok (Failure "insufficient funds")))
               tt None (Some Example.throwing) Example.start)) = 1
  /\ last (snd (MultiChain.handler
                  (Example.simulated
                     (Ok (Example.intent "tb1qdest" "0.001" "BTC"))
                     (Ok (Failure "insufficient funds")))
                  tt None (Some Example.throwing) Example.start))
     = Some (EvCallback
               {| text := "Error transferring BTC: Error: Transfer BTC failed with error: insufficient funds";
                  content := ErrorContent
                               (new_Error "Transfer BTC failed with error: insufficient funds") |}
               (Throw (new_Error "callback failed"))).
Proof. repeat split; vm_compute; reflexivity. Qed.

Lemma signer_failure_is_reported_witness :
  Trace.count Trace.is_callback
    (snd (MultiChain.handler
            (Example.simulated (Ok (Example.intent "tb1qdest" "0.001" "BTC"))
                               (Ok (Failure "insufficient funds")))
            tt None (Some Example.quiet) Example.start)) = 1
  /\ Trace.count Trace.is_success_callback
       (snd (MultiChain.handler
               (Example.simulated (Ok (Example.intent "tb1qdest" "0.001" "BTC"))
                                  (Ok (Failure "insufficient funds")))
               tt None (Some Example.quiet) Example.start)) = 0
  /\ exists response answer,
       last (snd (MultiChain.handler
                    (Example.simulated
                       (Ok (Example.intent "tb1qdest" "0.001" "BTC"))
                       (Ok (Failure "insufficient funds")))
                    tt None (Some Example.quiet) Example.start))
       = Some (EvCallback response answer)
       /\ Trace.contains "insufficient funds" (text response)
       /\ fst (fst (MultiChain.handler
                      (Example.simulated
                         (Ok (Example.intent "tb1qdest" "0.001" "BTC"))
                         (Ok (Failure "insufficient funds")))
                      tt None (Some Example.quiet) Example.start))
          = match answer with
            | Ok _ => Ok false
            | Throw e => Throw e
            end.
Proof.
  eapply (signer_failure_is_reported
            (Example.simulated (Ok (Example.intent "tb1qdest" "0.001" "BTC"))
                               (Ok (Failure "insufficient funds")))
            tt None Example.quiet Example.start _ _ _ BTC _ "ed25519:secret"
            "insufficient funds" eq_refl).
  vm_compute. do 5 right. left. reflexivity.
Defined.

(** A transfer that goes through: the extracted intent is dispatched, and
    the handler reports the transaction hash and returns [true]. *)
Example handler_reports_success :
  fst (fst (MultiChain.handler
              (Example.simulated (Ok (Example.intent "tb1qdest" "0.0001" "BTC"))
                                 (Ok (Success "ABC123XYZ")))
              tt None (Some Example.quiet) Example.start))
  = Ok true
  /\ Trace.sent_values
       (snd (MultiChain.handler
               (Example.simulated (Ok (Example.intent "tb1qdest" "0.0001" "BTC"))
                                  (Ok (Success "ABC123XYZ")))
               tt None (Some Example.quiet) Example.start))
     = ["10000"]
  /\ last (snd (MultiChain.handler
                  (Example.simulated
                     (Ok (Example.intent "tb1qdest" "0.0001" "BTC"))
                     (Ok (Success "ABC123XYZ")))
                  tt None (Some Example.quiet) Example.start))
     = Some (EvCallback
               {| text := "Successfully transferred 0.0001 BTC to tb1qdest"
                          +:+ newline +:+ "Transaction: ABC123XYZ";
                  content := SuccessContent "ABC123XYZ" (Str "0.0001")
                                            "tb1qdest" |}
               (Ok tt)).
Proof. repeat split; vm_compute; reflexivity. Qed.

(** A callback that throws at the report of success is called again, with
    its own error, from the [catch]; when it throws again the handler
    throws, although the transaction was sent. *)
Example handler_calls_back_twice_when_the_callback_throws :
  fst (fst (MultiChain.handler
              (Example.simulated (Ok (Example.intent "tb1qdest" "0.001" "BTC"))
                                 (Ok (Success "ABC123XYZ")))
              tt None (Some Example.throwing) Example.start))
  = Throw (new_Error "callback failed")
  /\ Trace.count Trace.is_callback
       (snd (MultiChain.handler
               (Example.simulated (Ok (Example.intent "tb1qdest" "0.001" "BTC"))
                                  (Ok (Success "ABC123XYZ")))
               tt None (Some Example.throwing) Example.start)) = 2
  /\ Trace.count Observe.is_sign_and_send
       (snd (MultiChain.handler
               (Example.simulated (Ok (Example.intent "tb1qdest" "0.001" "BTC"))
                                  (Ok (Success "ABC123XYZ")))
               tt None (Some Example.throwing) Example.start)) = 1.
Proof. repeat split; vm_compute; reflexivity. Qed.



(** C5, as stated, fails: a content whose symbol is DOGE does not pass the
    check the specification describes, and yet the dispatcher is entered
    with it; the callback then carries the dispatcher's error, not the
    rejection. *)
Lemma unsupported_symbol_reaches_the_dispatcher :
  Spec.manual_type_check (Example.intent "DH5yaieqoZN36fDVciNyRueRGvGLR3mr7L" "10" "DOGE")
  = false
  /\ MultiChain.isTransferContent
       (Example.intent "DH5yaieqoZN36fDVciNyRueRGvGLR3mr7L" "10" "DOGE")
     = Ok true
  /\ MultiChain.handler
       (Example.simulated
          (Ok (Example.intent "DH5yaieqoZN36fDVciNyRueRGvGLR3mr7L" "10" "DOGE"))
          (Ok (Success "hash")))
       tt None (Some Example.quiet) Example.start
     = (Ok false, {| world := 2000%Z; heap := [] |},
        [EvComposeState tt (Ok tt);
         EvGenerateObject "context" TransferSchema
           (Ok (Example.intent "DH5yaieqoZN36fDVciNyRueRGvGLR3mr7L" "10" "DOGE"));
         EvCall "transfer" ["DOGE"; "DH5yaieqoZN36fDVciNyRueRGvGLR3mr7L"; "10"];
         EvLog LogError
           "Error during DOGE transfer: Error: Unsupported symbol to transfer: DOGE";
         EvCallback
           {| text := "Error transferring DOGE: Error: Unsupported symbol to transfer: DOGE";
              content := ErrorContent
                           (new_Error "Unsupported symbol to transfer: DOGE") |}
           (Ok tt)]).
Proof. repeat split; vm_compute; reflexivity. Qed.

(** A rejection handed to a callback that throws: the handler throws what
    the callback threw. *)
Example handler_raises_when_the_rejection_callback_throws :
  BtcOnly.handler
    (Example.simulated (Ok (Obj [("amount", Str "0.001")]))
                       (Ok (Success "hash")))
    tt None (Some Example.throwing) Example.start
  = (Throw (new_Error "callback failed"),
     {| world := 2000%Z; heap := [] |},
     [EvComposeState tt (Ok tt);
      EvGenerateObject "context" BtcTransferSchema
        (Ok (Obj [("amount", Str "0.001")]));
      EvLog LogError "Invalid content for TRANSFER_BTC action:";
      EvCallback Trace.rejection (Throw (new_Error "callback failed"))]).
Proof. vm_compute. reflexivity. Qed.

Lemma dispatch_only_after_type_check_witness :
  Trace.count Trace.is_call
    (snd (MultiChain.handler
            (Example.simulated
               (Ok (Obj [("amount", Str "0.001"); ("symbol", Str "BTC")]))
               (Ok (Success "hash")))
            tt None (Some Example.quiet) Example.start)) = 0
  /\ Trace.count Trace.is_signer_call
       (snd (MultiChain.handler
               (Example.simulated
                  (Ok (Obj [("amount", Str "0.001"); ("symbol", Str "BTC")]))
                  (Ok (Success "hash")))
               tt None (Some Example.quiet) Example.start)) = 0
  /\ Trace.count Trace.is_callback
       (snd (MultiChain.handler
               (Example.simulated
                  (Ok (Obj [("amount", Str "0.001"); ("symbol", Str "BTC")]))
                  (Ok (Success "hash")))
               tt None (Some Example.quiet) Example.start)) = 1
  /\ exists answer,
       last (snd (MultiChain.handler
                    (Example.simulated
                       (Ok (Obj [("amount", Str "0.001"); ("symbol", Str "BTC")]))
                       (Ok (Success "hash")))
                    tt None (Some Example.quiet) Example.start))
       = Some (EvCallback Trace.rejection answer)
       /\ fst (fst (MultiChain.handler
                      (Example.simulated
                         (Ok (Obj [("amount", Str "0.001");
                                   ("symbol", Str "BTC")]))
                         (Ok (Success "hash")))
                      tt None (Some Example.quiet) Example.start))
          = match answer with
            | Ok _ => Ok false
            | Throw e => Throw e
            end.
Proof.
  eapply (proj2 (dispatch_only_after_type_check
                   (Example.simulated
                      (Ok (Obj [("amount", Str "0.001"); ("symbol", Str "BTC")]))
                      (Ok (Success "hash")))
                   tt None (Some Example.quiet) Example.start _ _ _
                   "context" TransferSchema
                   (Obj [("amount", Str "0.001"); ("symbol", Str "BTC")])
                   eq_refl _)).
  reflexivity.
  Unshelve. vm_compute. right. left. reflexivity.
Defined.

(** * Further properties of the provider *)

Section ProviderMore.

Context {World State Message KeyPair : Type}.

Abbreviation H := (Host World State Message KeyPair).
Abbreviation Ev := (Event State Message KeyPair).

Lemma cache_get_nothing {V : Type} (c : NodeCache.Cache V) (time : Z)
  (key : string) :
  Observe.nothing_cached c time key ->
  exists c', NodeCache.get c time key = (None, c')
             /\ NodeCache.stdTTL c' = NodeCache.stdTTL c
             /\ NodeCache.data c' !! key = None.
Proof.
  unfold Observe.nothing_cached, NodeCache.get.
  destruct (NodeCache.data c !! key) as [w |] eqn:Hw.
  - intros [Hz Hlt].
    destruct (Z.eqb_spec (NodeCache.t w) 0); [contradiction |].
    destruct (Z.ltb_spec (NodeCache.t w) time); [| lia].
    eexists. split; [reflexivity |]. split; [reflexivity |].
    cbn [NodeCache.data]. apply lookup_delete_eq.
  - intros _. exists c. auto.
Qed.

Lemma cache_get_None {V : Type} (c c' : NodeCache.Cache V) (time : Z)
  (key : string) :
  NodeCache.get c time key = (None, c') ->
  NodeCache.data c' !! key = None /\ NodeCache.stdTTL c' = NodeCache.stdTTL c.
Proof.
  unfold NodeCache.get.
  destruct (NodeCache.data c !! key) as [w |] eqn:Hw.
  - destruct (_ && _); [| discriminate].
    intros [= <-]. cbn [NodeCache.data NodeCache.stdTTL].
    split; [apply lookup_delete_eq | reflexivity].
  - intros [= <-]. auto.
Qed.

(** The run of [getDerivedAddress] on a cache miss. *)
Lemma multichain_miss_run :
  forall (h : H) (this : nat) (p : Provider MultiChain.Addresses)
         (st : @St World MultiChain.Addresses),
    heap st !! this = Some p ->
    Observe.nothing_cached (cache p) (Date_now h (world st))
                           ("derived-addresses-" +:+ accountId p) ->
    let answer :=
      fst (deriveAddressAndPublicKey h BTC
             (Some (MultiChain.getBitcoinConfig (getSetting h)))
             (accountId p) "bitcoin-1" (world st)) in
    let evs := snd (MultiChain.getDerivedAddress h this st) in
    (exists rest,
        evs = EvDerive BTC (Some (MultiChain.getBitcoinConfig (getSetting h)))
                       (accountId p) "bitcoin-1" answer :: rest)
    /\ Trace.count (Trace.is_derive BTC) evs = 1
    /\ Trace.count (Trace.is_derive EVM) evs
       = match answer with Ok _ => 1 | Throw _ => 0 end
    /\ Trace.count Trace.is_cache_hit evs = 0.
Proof.
  intros h this p st Hp Hnothing answer evs. subst answer evs.
  pose proof (lookup_lt_Some _ _ _ Hp) as Hlt.
  destruct (cache_get_nothing _ _ _ Hnothing) as (c' & Hget & _ & _).
  unfold MultiChain.getDerivedAddress, cache_get, cache_set.
  unfold_monad. rewrite Hp. cbv beta iota zeta. rewrite Hp. cbv beta iota zeta.
  rewrite Hget. cbv beta iota zeta. cbn [world heap].
  unfold MultiChain.getDerivationPath at 1 2.
  destruct (deriveAddressAndPublicKey h BTC _ _ _ _) as [[b | e] w1];
    cbv beta iota zeta; cbn [world heap fst snd].
  - destruct (deriveAddressAndPublicKey h EVM _ _ _ _) as [[a | e] w2];
      cbv beta iota zeta; cbn [world heap fst snd].
    + rewrite list_lookup_insert_eq by exact Hlt. cbv beta iota zeta.
      cbn [snd app]. repeat split. eexists. reflexivity.
    + cbn [snd app]. repeat split. eexists. reflexivity.
  - cbn [snd app]. repeat split. eexists. reflexivity.
Qed.

(** X1. When nothing live is cached for the account (no entry, or one
    whose deadline has passed), [getDerivedAddress] calls the BTC derivation
    first, on the world as it is, with the Bitcoin configuration, the
    provider's account and the path [bitcoin-1]; it makes this call once,
    calls the EVM derivation once if and only if the BTC one answered, and
    logs no cache hit. *)
Theorem multichain_derives_when_nothing_is_cached :
  forall (h : H) (this : nat) (p : Provider MultiChain.Addresses)
         (st : @St World MultiChain.Addresses),
    heap st !! this = Some p ->
    Observe.nothing_cached (cache p) (Date_now h (world st))
                           ("derived-addresses-" +:+ accountId p) ->
    let answer :=
      fst (deriveAddressAndPublicKey h BTC
             (Some (MultiChain.getBitcoinConfig (getSetting h)))
             (accountId p) "bitcoin-1" (world st)) in
    let evs := snd (MultiChain.getDerivedAddress h this st) in
    (exists rest,
        evs = EvDerive BTC (Some (MultiChain.getBitcoinConfig (getSetting h)))
                       (accountId p) "bitcoin-1" answer :: rest)
    /\ Trace.count (Trace.is_derive BTC) evs = 1
    /\ Trace.count (Trace.is_derive EVM) evs
       = match answer with Ok _ => 1 | Throw _ => 0 end
    /\ Trace.count Trace.is_cache_hit evs = 0.
Proof.
  intros h this p st Hp Hnothing answer evs. subst answer evs.
  pose proof (lookup_lt_Some _ _ _ Hp) as Hlt.
  destruct (cache_get_nothing _ _ _ Hnothing) as (c' & Hget & _ & _).
  unfold MultiChain.getDerivedAddress, cache_get, cache_set.
  unfold_monad. rewrite Hp. cbv beta iota zeta. rewrite Hp. cbv beta iota zeta.
  rewrite Hget. cbv beta iota zeta. cbn [world heap].
  unfold MultiChain.getDerivationPath at 1 2.
  destruct (deriveAddressAndPublicKey h BTC _ _ _ _) as [[b | e] w1];
    cbv beta iota zeta; cbn [world heap fst snd].
  - destruct (deriveAddressAndPublicKey h EVM _ _ _ _) as [[a | e] w2];
      cbv beta iota zeta; cbn [world heap fst snd].
    + rewrite list_lookup_insert_eq by exact Hlt. cbv beta iota zeta.
      cbn [snd app]. repeat split. eexists. reflexivity.
    + cbn [snd app]. repeat split. eexists. reflexivity.
  - cbn [snd app]. repeat split. eexists. reflexivity.
Qed.

(** What a call does to the provider objects: only the cache of its own
    provider can change, its TTL setting stays, and a call that returns
    [null] leaves nothing stored under the account's key. *)
Lemma multichain_getDerivedAddress_heap (h : H) (this : nat)
  (p : Provider MultiChain.Addresses) (st st' : @St World MultiChain.Addresses)
  (r : Result (option MultiChain.Addresses)) (evs : list Ev) :
  heap st !! this = Some p ->
  MultiChain.getDerivedAddress h this st = (r, st', evs) ->
  exists c',
    heap st' = <[this := {| accountId := accountId p; cache := c' |}]> (heap st)
    /\ NodeCache.stdTTL c' = NodeCache.stdTTL (cache p)
    /\ (r = Ok None ->
        NodeCache.data c' !! ("derived-addresses-" +:+ accountId p) = None).
Proof.
  intros Hp Hrun.
  pose proof (lookup_lt_Some _ _ _ Hp) as Hlt.
  unfold MultiChain.getDerivedAddress, cache_get, cache_set in Hrun.
  unfold_monad_in Hrun.
  rewrite Hp in Hrun. cbv beta iota zeta in Hrun. rewrite Hp in Hrun.
  cbv beta iota zeta in Hrun.
  destruct (NodeCache.get (cache p) (Date_now h (world st))
              ("derived-addresses-" +:+ accountId p)) as [[x |] c'] eqn:Hget;
    cbv beta iota zeta in Hrun; cbn [world heap] in Hrun.
  - injection Hrun as <- <- <-. exists c'. cbn [heap].
    apply cache_get_Some in Hget as [-> _].
    split; [reflexivity |]. split; [reflexivity | discriminate].
  - pose proof (cache_get_None _ _ _ _ Hget) as [Hnone Httl].
    destruct (deriveAddressAndPublicKey h BTC _ _ _ _) as [[b | e] w1];
      cbv beta iota zeta in Hrun; cbn [world heap] in Hrun.
    + destruct (deriveAddressAndPublicKey h EVM _ _ _ _) as [[a | e] w2];
        cbv beta iota zeta in Hrun; cbn [world heap] in Hrun.
      * rewrite list_lookup_insert_eq in Hrun by exact Hlt.
        cbv beta iota zeta in Hrun. cbn [world heap accountId cache] in Hrun.
        injection Hrun as <- <- <-. eexists. cbn [heap].
        rewrite list_insert_insert_eq.
        split; [reflexivity |]. split; [| discriminate].
        unfold NodeCache.set. cbn [NodeCache.stdTTL]. exact Httl.
      * injection Hrun as <- <- <-. exists c'. cbn [heap]. auto.
    + injection Hrun as <- <- <-. exists c'. cbn [heap]. auto.
Qed.

(** X2. A failure is not cached. After a call of [getDerivedAddress] that
    returned [null], the next call on the same provider, whenever it is
    made, calls the BTC derivation again and logs no cache hit. *)
Theorem multichain_null_result_is_not_cached :
  forall (h : H) (this : nat) (p : Provider MultiChain.Addresses)
         (st st' : @St World MultiChain.Addresses) (evs : list Ev),
    heap st !! this = Some p ->
    MultiChain.getDerivedAddress h this st = (Ok None, st', evs) ->
    forall st2 : @St World MultiChain.Addresses,
      heap st2 !! this = heap st' !! this ->
      Trace.count (Trace.is_derive BTC)
        (snd (MultiChain.getDerivedAddress h this st2)) = 1
      /\ Trace.count Trace.is_cache_hit
           (snd (MultiChain.getDerivedAddress h this st2)) = 0.
Proof.
  intros h this p st st' evs Hp Hrun st2 Hsame.
  pose proof (lookup_lt_Some _ _ _ Hp) as Hlt.
  destruct (multichain_getDerivedAddress_heap h this p st st' _ evs Hp Hrun)
    as (c' & Hheap & _ & Hnone).
  specialize (Hnone eq_refl).
  rewrite Hheap, list_lookup_insert_eq in Hsame by exact Hlt.
  assert (Hnothing : Observe.nothing_cached c' (Date_now h (world st2))
                       ("derived-addresses-" +:+ accountId p)).
  { unfold Observe.nothing_cached. now rewrite Hnone. }
  destruct (multichain_miss_run h this _ st2 Hsame Hnothing)
    as (_ & Hbtc & _ & Hhit).
  split; assumption.
Qed.

(** X3. A call of [getDerivedAddress] touches its own provider only: the
    number of provider objects stays, every other provider is as it was,
    the provider keeps its account, and when every provider had the
    standard TTL before the call, every provider has it after. *)
Theorem multichain_getDerivedAddress_is_local :
  forall (h : H) (this : nat) (p : Provider MultiChain.Addresses)
         (st st' : @St World MultiChain.Addresses)
         (r : Result (option MultiChain.Addresses)) (evs : list Ev),
    heap st !! this = Some p ->
    MultiChain.getDerivedAddress h this st = (r, st', evs) ->
    length (heap st') = length (heap st)
    /\ (forall other, other <> this -> heap st' !! other = heap st !! other)
    /\ (exists p', heap st' !! this = Some p' /\ accountId p' = accountId p)
    /\ (Observe.standard_ttl st -> Observe.standard_ttl st').
Proof.
  intros h this p st st' r evs Hp Hrun.
  pose proof (lookup_lt_Some _ _ _ Hp) as Hlt.
  destruct (multichain_getDerivedAddress_heap h this p st st' r evs Hp Hrun)
    as (c' & Hheap & Httl & _).
  rewrite Hheap. split; [apply length_insert |].
  split; [intros other Hne; now apply list_lookup_insert_ne |].
  split.
  - eexists. split; [now apply list_lookup_insert_eq | reflexivity].
  - intros Hstd i q Hq. rewrite Hheap in Hq.
    destruct (decide (this = i)) as [<- | Hne].
    + rewrite list_lookup_insert_eq in Hq by exact Hlt.
      injection Hq as <-. cbn [cache]. rewrite Httl. exact (Hstd _ _ Hp).
    + rewrite list_lookup_insert_ne in Hq by exact Hne. exact (Hstd _ _ Hq).
Qed.

(** X4. What the exported [walletProvider.get] returns. It never throws.
    When it returns addresses, [NEAR_ADDRESS] is configured and the run
    consists of the two derivation calls, BTC then EVM, for that account
    and the fixed paths (one call, for BTC, in the BTC-only sources), both
    answered, and the addresses returned are the ones derived. When it
    returns [null], either [NEAR_ADDRESS] is missing or empty, and then
    nothing was called and only the error was logged, or a derivation call
    failed and its error was logged. *)
Theorem walletProvider_get_returns_what_was_derived :
  forall (h : H),
    (forall (st st' : @St World MultiChain.Addresses)
            (r : Result (option MultiChain.Addresses)) (evs : list Ev),
        MultiChain.walletProvider_get h st = (r, st', evs) ->
        match r with
        | Ok (Some addresses) =>
            exists account b e,
              truthy (getSetting h "NEAR_ADDRESS") = Some account
              /\ evs = [EvDerive BTC
                          (Some (MultiChain.getBitcoinConfig (getSetting h)))
                          account "bitcoin-1" (Ok b);
                        EvDerive EVM
                          (Some (MultiChain.getEvmConfig (getSetting h)))
                          account "evm-1" (Ok e);
                        EvLog LogInfo "Chain Signatures derived addresses:"]
              /\ addresses = {| MultiChain.btc := address b;
                                MultiChain.evm := address e |}
        | Ok None =>
            (truthy (getSetting h "NEAR_ADDRESS") = None /\ st' = st
             /\ evs = [EvLog LogError
                         "Error in get derived address provider: Error: NEAR_ADDRESS not configured"])
            \/ (exists chain config account path e,
                   In (EvDerive chain config account path (Throw e)) evs
                   /\ In (EvLog LogError
                            ("Error in derived address provider: " +:+
                             Error_toString e)) evs)
        | Throw _ => False
        end)
    /\ (forall (st st' : @St World string) (r : Result (option string))
               (evs : list Ev),
           BtcOnly.walletProvider_get h st = (r, st', evs) ->
           match r with
           | Ok (Some addr) =>
               exists account d,
                 truthy (getSetting h "NEAR_ADDRESS") = Some account
                 /\ evs = [EvDerive BTC
                             (BtcOnly.BITCOIN_CONFIGS
                                (or_else (getSetting h "NEAR_NETWORK") "testnet"))
                             account "bitcoin-1" (Ok d)]
                 /\ addr = address d
           | Ok None =>
               (truthy (getSetting h "NEAR_ADDRESS") = None /\ st' = st
                /\ evs = [EvLog LogError
                            "Error in get derived address provider: Error: NEAR_ADDRESS not configured"])
               \/ (exists chain config account path e,
                      In (EvDerive chain config account path (Throw e)) evs
                      /\ In (EvLog LogError
                               ("Error in derived address provider: " +:+
                                Error_toString e)) evs)
           | Throw _ => False
           end).
Proof.
  intros h. split.
  - intros st st' r evs Hrun.
    unfold MultiChain.walletProvider_get, MultiChain.DerivedAddressProvider_get,
      MultiChain.new_DerivedAddressProvider in Hrun.
    destruct (truthy (getSetting h "NEAR_ADDRESS")) as [account |] eqn:Hacc.
    + unfold MultiChain.getDerivedAddress, cache_get, cache_set in Hrun.
      unfold_monad_in Hrun. cbn [world heap accountId cache] in Hrun.
      repeat (rewrite (list_lookup_middle (heap st) [] _ _ eq_refl) in Hrun;
              cbv beta iota zeta in Hrun;
              cbn [world heap accountId cache] in Hrun).
      rewrite cache_get_fresh in Hrun.
      cbv beta iota zeta in Hrun. cbn [world heap accountId cache] in Hrun.
      unfold MultiChain.getDerivationPath in Hrun.
      destruct (deriveAddressAndPublicKey h BTC _ _ _ _) as [[b | e] w1];
        cbv beta iota zeta in Hrun; cbn [world heap] in Hrun.
      * destruct (deriveAddressAndPublicKey h EVM _ _ _ _) as [[a | e] w2];
          cbv beta iota zeta in Hrun; cbn [world heap] in Hrun.
        -- rewrite list_lookup_insert_eq in Hrun
             by (rewrite length_app; simpl; lia).
           cbv beta iota zeta in Hrun. injection Hrun as <- <- <-.
           exists account, b, a. repeat split.
        -- injection Hrun as <- <- <-. right.
           do 5 eexists. split; simpl; auto 10.
      * injection Hrun as <- <- <-. right.
        do 5 eexists. split; simpl; auto 10.
    + unfold_monad_in Hrun. injection Hrun as <- <- <-. left. repeat split.
  - intros st st' r evs Hrun.
    unfold BtcOnly.walletProvider_get, BtcOnly.DerivedAddressProvider_get,
      BtcOnly.new_DerivedAddressProvider in Hrun.
    destruct (truthy (getSetting h "NEAR_ADDRESS")) as [account |] eqn:Hacc.
    + unfold BtcOnly.getDerivedAddress, BtcOnly.derive_and_cache,
        cache_get, cache_set in Hrun.
      unfold_monad_in Hrun. cbn [world heap accountId cache] in Hrun.
      repeat (rewrite (list_lookup_middle (heap st) [] _ _ eq_refl) in Hrun;
              cbv beta iota zeta in Hrun;
              cbn [world heap accountId cache] in Hrun).
      rewrite cache_get_fresh in Hrun.
      cbv beta iota zeta in Hrun. cbn [world heap accountId cache] in Hrun.
      destruct (deriveAddressAndPublicKey h BTC _ _ _ _) as [[d | e] w1];
        cbv beta iota zeta in Hrun; cbn [world heap] in Hrun.
      * rewrite list_lookup_insert_eq in Hrun
          by (rewrite length_app; simpl; lia).
        cbv beta iota zeta in Hrun. injection Hrun as <- <- <-.
        exists account, d. repeat split.
      * injection Hrun as <- <- <-. right.
        do 5 eexists. split; simpl; auto 10.
    + unfold_monad_in Hrun. injection Hrun as <- <- <-. left. repeat split.
Qed.

(** X5. The BTC-only provider tests the cached string for truth. With a
    live entry for the account, a call returns the cached address and only
    logs the cache hit when that address is not the empty string; when it
    is, the call calls the derivation again. *)
Theorem btconly_reuse_depends_on_truth_of_the_address :
  forall (h : H) (this : nat) (p : Provider string) (st : @St World string)
         (w : NodeCache.Wrapped string),
    heap st !! this = Some p ->
    NodeCache.data (cache p) !! ("derived-address-bitcoin-" +:+ accountId p)
    = Some w ->
    (NodeCache.t w = 0 \/ Date_now h (world st) <= NodeCache.t w)%Z ->
    if String.eqb (NodeCache.v w) ""
    then Trace.count (Trace.is_derive BTC)
           (snd (BtcOnly.getDerivedAddress h this st)) = 1
         /\ Trace.count Trace.is_cache_hit
              (snd (BtcOnly.getDerivedAddress h this st)) = 0
    else BtcOnly.getDerivedAddress h this st
         = (Ok (Some (NodeCache.v w)), st, [Trace.hit]).
Proof.
  intros h this p st w Hp Hw Hlive.
  pose proof (lookup_lt_Some _ _ _ Hp) as Hlt.
  destruct (String.eqb (NodeCache.v w) "") eqn:Hempty.
  - unfold BtcOnly.getDerivedAddress, BtcOnly.derive_and_cache,
      cache_get, cache_set.
    unfold_monad. rewrite Hp. cbv beta iota zeta. rewrite Hp.
    cbv beta iota zeta.
    rewrite (cache_get_live _ _ _ _ Hw Hlive). cbv beta iota zeta.
    rewrite Hempty. cbn [world heap].
    destruct (deriveAddressAndPublicKey h BTC _ _ _ _) as [[d | e] w1];
      cbv beta iota zeta; cbn [world heap].
    + rewrite list_lookup_insert_eq by exact Hlt. cbv beta iota zeta.
      split; reflexivity.
    + split; reflexivity.
  - apply (btconly_cached_address_hit h this p st w Hp Hw Hlive).
    intros Heq. rewrite Heq in Hempty. discriminate.
Qed.

(** X16. After the TTL the addresses are derived afresh. When a call of
    [getDerivedAddress] has derived and returned addresses (at a clock
    reading that is not negative), a call on the same provider more than
    300 seconds later does not use them: it calls the BTC derivation again
    and logs no cache hit. *)
Theorem cached_address_expires_after_ttl :
  forall (h : H) (this : nat) (p : Provider MultiChain.Addresses)
         (st st1 : @St World MultiChain.Addresses) (evs1 : list Ev)
         (addrs : MultiChain.Addresses),
    heap st !! this = Some p ->
    NodeCache.stdTTL (cache p) = 300%Z ->
    MultiChain.getDerivedAddress h this st = (Ok (Some addrs), st1, evs1) ->
    Trace.count Trace.is_cache_hit evs1 = 0 ->
    (0 <= Date_now h (world st1))%Z ->
    forall st2 : @St World MultiChain.Addresses,
      heap st2 !! this = heap st1 !! this ->
      (Date_now h (world st1) + 300 * 1000 < Date_now h (world st2))%Z ->
      Trace.count (Trace.is_derive BTC)
        (snd (MultiChain.getDerivedAddress h this st2)) = 1
      /\ Trace.count Trace.is_cache_hit
           (snd (MultiChain.getDerivedAddress h this st2)) = 0.
Proof.
  intros h this p st st1 evs1 addrs Hp Httl Hrun Hderived Hclock st2 Hsame Hlate.
  destruct (multichain_success_is_cached h this p st st1 evs1 addrs Hp Httl Hrun)
    as (p1 & w & Hp1 & Hacc & Hw & _ & Ht).
  specialize (Ht Hderived). rewrite Hp1 in Hsame. rewrite <- Hacc in Hw.
  assert (Hnothing : Observe.nothing_cached (cache p1) (Date_now h (world st2))
                       ("derived-addresses-" +:+ accountId p1)).
  { unfold Observe.nothing_cached. rewrite Hw. lia. }
  destruct (multichain_miss_run h this p1 st2 Hsame Hnothing)
    as (_ & Hbtc & _ & Hhit).
  split; assumption.
Qed.

End ProviderMore.

(** * Further properties of the transfer action *)

(** Unfolds a handler and everything it calls in the run [H]. *)
Ltac unfold_multichain_handler H :=
  unfold MultiChain.handler, MultiChain.transfer, MultiChain.transferBTC,
    MultiChain.transferEth in H;
  unfold_monad_in H.

Ltac unfold_btconly_handler H :=
  unfold BtcOnly.handler, BtcOnly.transferBTC in H;
  unfold_monad_in H.

Section HandlerMore.

Context {World State Message KeyPair : Type}.

Abbreviation H := (Host World State Message KeyPair).
Abbreviation Ev := (Event State Message KeyPair).

(** X6. The handler signs what was extracted: a sign-and-send call made
    while handling carries the recipient of the generated content as [to]
    and the base-unit string of its amount as [value]; in the multi-chain
    bundle the chain is the one of the content's symbol and the derivation
    path the one of that chain. *)
Theorem handler_signs_what_was_extracted :
  forall (h : H) (message : Message) (state : option State) (callback : option (Callback World)),
    (forall (st st' : @St World MultiChain.Addresses) (r : Result bool)
            (evs : list Ev) context schema content chain request key answer,
        MultiChain.handler h message state callback st = (r, st', evs) ->
        In (EvGenerateObject context schema (Ok content)) evs ->
        In (EvSignAndSend chain request key answer) evs ->
        ToString (field content "symbol") = Observe.symbol_of chain
        /\ tx_to (transaction request) = ToString (field content "recipient")
        /\ tx_value (transaction request)
           = Observe.base_unit_value chain (ToString (field content "amount"))
        /\ derivationPath request = MultiChain.getDerivationPath chain)
    /\ (forall (st st' : @St World string) (r : Result bool)
               (evs : list Ev) context schema content chain request key answer,
           BtcOnly.handler h message state callback st = (r, st', evs) ->
           In (EvGenerateObject context schema (Ok content)) evs ->
           In (EvSignAndSend chain request key answer) evs ->
           chain = BTC
           /\ tx_to (transaction request) = ToString (field content "recipient")
           /\ tx_value (transaction request)
              = Observe.base_unit_value BTC (ToString (field content "amount"))
           /\ derivationPath request = "bitcoin-1").
Proof.
  intros h message state callback. split.
  - intros st st' r evs context schema content chain request key answer
      Hrun Hgen Hsign.
    unfold_multichain_handler Hrun.
    run_cases Hrun; trace_cases Hgen; trace_cases Hsign;
      repeat split; apply String.eqb_eq; assumption.
  - intros st st' r evs context schema content chain request key answer
      Hrun Hgen Hsign.
    unfold_btconly_handler Hrun.
    run_cases Hrun; trace_cases Hgen; trace_cases Hsign; repeat split.
Qed.

(** X7. Success is reported only when the signer said so. When the handler
    returns [true], exactly one sign-and-send call was made in the run and
    it was answered with a transaction hash; with a callback supplied, the
    last event is the callback whose payload carries that hash as
    [signature] and whose text contains it. *)
Theorem handler_reports_success_only_when_signed :
  forall (h : H) (message : Message) (state : option State) (callback : option (Callback World)),
    (forall (st st' : @St World MultiChain.Addresses) (evs : list Ev),
        MultiChain.handler h message state callback st = (Ok true, st', evs) ->
        exists chain request key hash,
          In (EvSignAndSend chain request key (Ok (Success hash))) evs
          /\ Trace.count Observe.is_sign_and_send evs = 1
          /\ (callback <> None ->
              exists response amount recipient,
                last evs = Some (EvCallback response (Ok tt))
                /\ content response = SuccessContent hash amount recipient
                /\ Trace.contains hash (text response)))
    /\ (forall (st st' : @St World string) (evs : list Ev),
           BtcOnly.handler h message state callback st = (Ok true, st', evs) ->
           exists chain request key hash,
             In (EvSignAndSend chain request key (Ok (Success hash))) evs
             /\ Trace.count Observe.is_sign_and_send evs = 1
             /\ (callback <> None ->
                 exists response amount recipient,
                   last evs = Some (EvCallback response (Ok tt))
                   /\ content response = SuccessContent hash amount recipient
                   /\ Trace.contains hash (text response))).
Proof.
  intros h message state callback. split.
  - intros st st' evs Hrun. remember (Ok true) as r eqn:Hr in Hrun.
    unfold_multichain_handler Hrun.
    run_cases Hrun; try discriminate Hr;
      repeat match goal with u : unit |- _ => destruct u end;
      (do 4 eexists; split; [simpl; auto 10 |]; split; [reflexivity |]);
      intros Hcb; try (now contradiction Hcb);
      (do 3 eexists; split; [reflexivity |]; split; [reflexivity |]);
      cbn [text]; skip_to_needle.
  - intros st st' evs Hrun. remember (Ok true) as r eqn:Hr in Hrun.
    unfold_btconly_handler Hrun.
    run_cases Hrun; try discriminate Hr;
      repeat match goal with u : unit |- _ => destruct u end;
      (do 4 eexists; split; [simpl; auto 10 |]; split; [reflexivity |]);
      intros Hcb; try (now contradiction Hcb);
      (do 3 eexists; split; [reflexivity |]; split; [reflexivity |]);
      cbn [text]; skip_to_needle.
Qed.

(** X8. A transfer derives once and signs once, with what it derived. A
    sign-and-send call made by [transfer] is the only one of the run and
    comes after the one derivation call of the run, which was made for the
    same chain, account and path and was answered; the transaction's
    [from] is the derived address (with the derived public key for BTC,
    none for ETH), the account and the key are the configured
    [NEAR_ADDRESS] and the parsed [NEAR_WALLET_SECRET_KEY], and provider URL,
    contract and network id are those of the configuration the derivation
    was given. *)
Theorem transfer_signs_with_what_it_derived :
  forall (h : H) (symbol recipient amount : string)
         (st st' : @St World MultiChain.Addresses) (r : Result string)
         (evs : list Ev) chain request key answer,
    MultiChain.transfer h symbol recipient amount st = (r, st', evs) ->
    In (EvSignAndSend chain request key answer) evs ->
    exists config account secret derived,
      evs = [EvCall "transfer" [symbol; recipient; amount];
             EvCall (match chain with BTC => "transferBTC" | EVM => "transferEth" end)
                    [recipient; amount];
             EvDerive chain (Some config) account (derivationPath request)
                      (Ok derived);
             EvSignAndSend chain request key answer]
      /\ truthy (getSetting h "NEAR_ADDRESS") = Some account
      /\ truthy (getSetting h "NEAR_WALLET_SECRET_KEY") = Some secret
      /\ KeyPair_fromString h secret = Ok key
      /\ tx_from (transaction request) = address derived
      /\ tx_publicKey (transaction request)
         = match chain with BTC => Some (publicKey derived) | EVM => None end
      /\ auth_accountId (nearAuthentication request) = account
      /\ auth_networkId (nearAuthentication request) = nearNetworkId config
      /\ rc_providerUrl (chainConfig request) = providerUrl config
      /\ rc_contract (chainConfig request) = contract config.
Proof.
  intros h symbol recipient amount st st' r evs chain request key answer
    Hrun Hsign.
  unfold MultiChain.transfer, MultiChain.transferBTC, MultiChain.transferEth
    in Hrun.
  unfold_monad_in Hrun.
  run_cases Hrun; trace_cases Hsign;
    (do 4 eexists; split; [reflexivity |]; repeat split; eassumption).
Qed.

(** X9. A content that is [null] or [undefined] is not rejected with a
    response: reading its fields throws a [TypeError] before the handler's
    [try], so the handler throws, makes no callback and dispatches
    nothing. *)
Theorem handler_throws_on_null_content :
  forall (h : H) (message : Message) (state : option State) (callback : option (Callback World)),
    (forall (st st' : @St World MultiChain.Addresses) (r : Result bool)
            (evs : list Ev) context schema content,
        MultiChain.handler h message state callback st = (r, st', evs) ->
        In (EvGenerateObject context schema (Ok content)) evs ->
        content = Null \/ content = Undefined ->
        (exists e, r = Throw e /\ name e = "TypeError")
        /\ Trace.count Trace.is_callback evs = 0
        /\ Trace.count Trace.is_call evs = 0)
    /\ (forall (st st' : @St World string) (r : Result bool)
               (evs : list Ev) context schema content,
           BtcOnly.handler h message state callback st = (r, st', evs) ->
           In (EvGenerateObject context schema (Ok content)) evs ->
           content = Null \/ content = Undefined ->
           (exists e, r = Throw e /\ name e = "TypeError")
           /\ Trace.count Trace.is_callback evs = 0
           /\ Trace.count Trace.is_call evs = 0).
Proof.
  intros h message state callback. split.
  - intros st st' r evs context schema content Hrun Hgen Hnull.
    unfold_multichain_handler Hrun.
    run_cases Hrun; trace_cases Hgen;
      try (cbn in *; discriminate);
      (split; [eexists; split; [reflexivity |] | split; reflexivity]);
      match goal with
      | E : MultiChain.isTransferContent _ = Throw _ |- _ =>
          cbn in E; injection E as <-; reflexivity
      end.
  - intros st st' r evs context schema content Hrun Hgen Hnull.
    unfold_btconly_handler Hrun.
    run_cases Hrun; trace_cases Hgen;
      try (cbn in *; discriminate);
      (split; [eexists; split; [reflexivity |] | split; reflexivity]);
      match goal with
      | E : BtcOnly.isTransferContent _ = Throw _ |- _ =>
          cbn in E; injection E as <-; reflexivity
      end.
Qed.

End HandlerMore.

Section HandlerFailures.

Context {World State Message KeyPair : Type}.

Abbreviation H := (Host World State Message KeyPair).
Abbreviation Ev := (Event State Message KeyPair).

Ltac at_most :=
  repeat first [apply le_n | apply le_S].

(** Settles what a finished run says about its callbacks. *)
Ltac calls_back :=
  (split; [at_most |]);
  (split; [intros Hnone; first [discriminate Hnone | reflexivity] |]);
  (split; [intros Hquiet; first [discriminate Hquiet | at_most] |]);
  (split;
   [ intros Hsome;
     first [ now contradiction Hsome
           | do 2 eexists; split; [reflexivity |];
             intros err Hthrow;
             first [discriminate Hthrow | injection Hthrow as <-; reflexivity] ]
   | intros Htwo;
     first [ discriminate Htwo
           | do 7 eexists; split; [simpl; eauto 20 |];
             split; reflexivity ] ]).

(** X10. The handler calls back at most twice in a run, and not at all
    when no callback was supplied. As long as no callback throws it calls
    back at most once. Whenever it calls back, a callback is the last
    thing it does; when it throws after calling back, it throws what that
    last callback threw. Two callbacks are made in one case only: the
    report of success threw inside the [try], and the [catch] handed the
    error it threw to the callback again. *)
Theorem handler_calls_back_at_most_twice :
  forall (h : H) (message : Message) (state : option State)
         (callback : option (Callback World)),
    (forall (st st' : @St World MultiChain.Addresses) (r : Result bool)
            (evs : list Ev),
        MultiChain.handler h message state callback st = (r, st', evs) ->
        Trace.count Trace.is_callback evs <= 2
        /\ (callback = None -> Trace.count Trace.is_callback evs = 0)
        /\ (Trace.count Trace.is_thrown_callback evs = 0 ->
            Trace.count Trace.is_callback evs <= 1)
        /\ (Trace.count Trace.is_callback evs <> 0 ->
            exists response answer,
              last evs = Some (EvCallback response answer)
              /\ forall e, r = Throw e -> answer = Throw e)
        /\ (Trace.count Trace.is_callback evs = 2 ->
            exists said hash amount recipient e again answer,
              In (EvCallback
                    {| text := said;
                       content := SuccessContent hash amount recipient |}
                    (Throw e)) evs
              /\ last evs = Some (EvCallback again answer)
              /\ content again = ErrorContent e))
    /\ (forall (st st' : @St World string) (r : Result bool) (evs : list Ev),
           BtcOnly.handler h message state callback st = (r, st', evs) ->
           Trace.count Trace.is_callback evs <= 2
           /\ (callback = None -> Trace.count Trace.is_callback evs = 0)
           /\ (Trace.count Trace.is_thrown_callback evs = 0 ->
               Trace.count Trace.is_callback evs <= 1)
           /\ (Trace.count Trace.is_callback evs <> 0 ->
               exists response answer,
                 last evs = Some (EvCallback response answer)
                 /\ forall e, r = Throw e -> answer = Throw e)
           /\ (Trace.count Trace.is_callback evs = 2 ->
               exists said hash amount recipient e again answer,
                 In (EvCallback
                       {| text := said;
                          content := SuccessContent hash amount recipient |}
                       (Throw e)) evs
                 /\ last evs = Some (EvCallback again answer)
                 /\ content again = ErrorContent e)).
Proof.
  intros h message state callback. split.
  - intros st st' r evs Hrun. unfold_multichain_handler Hrun.
    run_cases Hrun; calls_back.
  - intros st st' r evs Hrun. unfold_btconly_handler Hrun.
    run_cases Hrun; calls_back.
Qed.

(** X11. What fails before the handler's [try] is passed on unchanged: when
    state composition or content generation has thrown an error, the
    handler throws that same error, and it has made no callback, entered no
    transfer routine and called no signer primitive. *)
Theorem handler_passes_on_early_failures :
  forall (h : H) (message : Message) (state : option State) (callback : option (Callback World)),
    (forall (st st' : @St World MultiChain.Addresses) (r : Result bool)
            (evs : list Ev) (e : Error),
        MultiChain.handler h message state callback st = (r, st', evs) ->
        (exists m, In (EvComposeState m (Throw e)) evs)
        \/ (exists s, In (EvUpdateRecentMessageState s (Throw e)) evs)
        \/ (exists context schema,
               In (EvGenerateObject context schema (Throw e)) evs) ->
        r = Throw e
        /\ Trace.count Trace.is_callback evs = 0
        /\ Trace.count Trace.is_call evs = 0
        /\ Trace.count Trace.is_signer_call evs = 0)
    /\ (forall (st st' : @St World string) (r : Result bool) (evs : list Ev)
               (e : Error),
           BtcOnly.handler h message state callback st = (r, st', evs) ->
           (exists m, In (EvComposeState m (Throw e)) evs)
           \/ (exists s, In (EvUpdateRecentMessageState s (Throw e)) evs)
           \/ (exists context schema,
                  In (EvGenerateObject context schema (Throw e)) evs) ->
           r = Throw e
           /\ Trace.count Trace.is_callback evs = 0
           /\ Trace.count Trace.is_call evs = 0
           /\ Trace.count Trace.is_signer_call evs = 0).
Proof.
  intros h message state callback. split.
  - intros st st' r evs e Hrun [[m Hin] | [[s Hin] | (context & schema & Hin)]];
      unfold_multichain_handler Hrun;
      run_cases Hrun; trace_cases Hin; repeat split.
  - intros st st' r evs e Hrun [[m Hin] | [[s Hin] | (context & schema & Hin)]];
      unfold_btconly_handler Hrun;
      run_cases Hrun; trace_cases Hin; repeat split.
Qed.

End HandlerFailures.

(** * Further properties of the transfer routines and the configuration *)

Section TransferMore.

Context {World State Message KeyPair : Type}.

Abbreviation H := (Host World State Message KeyPair).
Abbreviation Ev := (Event State Message KeyPair).

(** X12. The amount is not validated. When [Number(amount)] is no finite
    number other than zero (the amount is not numeric, or is an infinity or
    a zero), a transfer that reaches sign-and-send sends as [value] what
    [String] prints for that number: [NaN], [Infinity], [-Infinity] or
    [0]. *)
Theorem transfer_sends_special_amounts_as_they_print :
  forall (h : H) (symbol recipient amount : string)
         (st st' : @St World MultiChain.Addresses) (r : Result string)
         (evs : list Ev) chain request key answer,
    MultiChain.transfer h symbol recipient amount st = (r, st', evs) ->
    In (EvSignAndSend chain request key answer) evs ->
    (forall s m e, JsNumber.Number amount <> S754_finite s m e) ->
    tx_value (transaction request)
    = JsNumber.Number_toString (JsNumber.Number amount).
Proof.
  intros h symbol recipient amount st st' r evs chain request key answer
    Hrun Hsign Hspecial.
  unfold MultiChain.transfer, MultiChain.transferBTC, MultiChain.transferEth
    in Hrun.
  unfold_monad_in Hrun.
  run_cases Hrun; trace_cases Hsign; cbn [tx_value transaction];
    unfold parseBTC, parseETH, parseAmount;
    destruct (JsNumber.Number amount) as [sg | sg | | sg mant ex];
    first [reflexivity | now contradiction (Hspecial sg mant ex)].
Qed.

(** X13. In the BTC-only sources a [NEAR_NETWORK] for which the
    configuration table answers [undefined] is found out late. With
    credentials configured, [transferBTC] hands the undefined
    configuration to the library, and whatever the library answers to
    that, [transferBTC] throws: the library's error when constructing or
    deriving throws, a [TypeError] on reading the network of the missing
    configuration otherwise. It never parses the key and never signs. *)
Theorem btconly_unknown_network_fails_before_signing :
  forall (h : H) (recipient amount account secret : string)
         (st : @St World string),
    truthy (getSetting h "NEAR_ADDRESS") = Some account ->
    truthy (getSetting h "NEAR_WALLET_SECRET_KEY") = Some secret ->
    BtcOnly.BITCOIN_CONFIGS (or_else (getSetting h "NEAR_NETWORK") "testnet")
    = None ->
    let answer :=
      deriveAddressAndPublicKey h BTC None account "bitcoin-1" (world st) in
    BtcOnly.transferBTC h recipient amount st
    = (match fst answer with
       | Ok _ => Throw (new_TypeError
                          "Cannot read properties of undefined (reading 'network')")
       | Throw e => Throw e
       end,
       {| world := snd answer; heap := heap st |},
       [EvCall "transferBTC" [recipient; amount];
        EvDerive BTC None account "bitcoin-1" (fst answer)]).
Proof.
  intros h recipient amount account secret st Hacc Hsec Hnone answer.
  subst answer. unfold BtcOnly.transferBTC. unfold_monad.
  rewrite Hacc, Hsec, Hnone. cbv beta iota zeta.
  destruct (deriveAddressAndPublicKey h BTC None account "bitcoin-1" (world st))
    as [[d | e] w]; reflexivity.
Qed.

(** X14. In the multi-chain bundle a [NEAR_NETWORK] that is no key of the
    signer table is not found out at all: a transfer that reaches
    sign-and-send hands over a request without signer contract and
    without network id. *)
Theorem multichain_unknown_network_signs_without_contract :
  forall (h : H) (symbol recipient amount : string)
         (st st' : @St World MultiChain.Addresses) (r : Result string)
         (evs : list Ev) chain request key answer,
    MultiChain.transfer h symbol recipient amount st = (r, st', evs) ->
    In (EvSignAndSend chain request key answer) evs ->
    MultiChain.CHAIN_SIGNATURES_CONFIG
      (nullish (getSetting h "NEAR_NETWORK") "testnet") = None ->
    rc_contract (chainConfig request) = None
    /\ auth_networkId (nearAuthentication request) = None.
Proof.
  intros h symbol recipient amount st st' r evs chain request key answer
    Hrun Hsign Hnone.
  unfold MultiChain.transfer, MultiChain.transferBTC, MultiChain.transferEth
    in Hrun.
  unfold_monad_in Hrun.
  run_cases Hrun; trace_cases Hsign;
    cbn [rc_contract chainConfig auth_networkId nearAuthentication];
    unfold MultiChain.getBitcoinConfig, MultiChain.getEvmConfig;
    cbn [contract nearNetworkId]; rewrite Hnone; split; reflexivity.
Qed.

End TransferMore.

(** X15. The two variants resolve the Bitcoin configuration alike on
    testnet and differ on mainnet. With no provider URL and no
    [BTC_NETWORK] set, and [NEAR_NETWORK] unset, [testnet] or [mainnet],
    the table of the BTC-only sources has the network id, the signer
    contract and the provider URL that [getBitcoinConfig] resolves; its
    Bitcoin network is the NEAR network, while [getBitcoinConfig]'s is
    [testnet] on either. *)
Theorem bitcoin_configurations_of_the_two_variants :
  forall (getSetting : string -> option string),
    getSetting "BTC_PROVIDER_URL" = None ->
    getSetting "BTC_NETWORK" = None ->
    getSetting "NEAR_NETWORK" = None
    \/ getSetting "NEAR_NETWORK" = Some "testnet"
    \/ getSetting "NEAR_NETWORK" = Some "mainnet" ->
    let resolved := MultiChain.getBitcoinConfig getSetting in
    let networkId := or_else (getSetting "NEAR_NETWORK") "testnet" in
    BtcOnly.BITCOIN_CONFIGS networkId
    = Some {| nearNetworkId := nearNetworkId resolved;
              contract := contract resolved;
              network := Some networkId;
              providerUrl := providerUrl resolved |}
    /\ network resolved = Some "testnet".
Proof.
  intros getSetting Hurl Hnet Hnear resolved networkId.
  subst resolved networkId. unfold MultiChain.getBitcoinConfig.
  rewrite Hurl, Hnet.
  destruct Hnear as [-> | [-> | ->]]; split; reflexivity.
Qed.

(** * The further properties at work on the simulated host *)

Lemma multichain_derives_when_nothing_is_cached_witness :
  Observe.nothing_cached (NodeCache.create 300 : NodeCache.Cache MultiChain.Addresses)
                         0 "derived-addresses-alice.testnet"
  /\ Trace.count (Trace.is_derive BTC)
       (snd (MultiChain.getDerivedAddress
               (Example.simulated (Ok Null) (Ok (Success "hash"))) 0
               Example.one_provider)) = 1.
Proof.
  assert (Hnothing :
            Observe.nothing_cached
              (NodeCache.create 300 : NodeCache.Cache MultiChain.Addresses)
              0 "derived-addresses-alice.testnet")
    by (vm_compute; exact I).
  split; [exact Hnothing |].
  exact (proj1 (proj2 (multichain_derives_when_nothing_is_cached
                         (Example.simulated (Ok Null) (Ok (Success "hash"))) 0
                         {| accountId := "alice.testnet";
                            cache := NodeCache.create 300 |}
                         Example.one_provider eq_refl Hnothing))).
Defined.

Lemma multichain_null_result_is_not_cached_witness :
  Trace.count (Trace.is_derive BTC)
    (snd (MultiChain.getDerivedAddress
            (Example.host Example.configured (Ok Null) Example.derivation_fails
                          (Ok (Success "hash"))) 0
            (snd (fst (MultiChain.getDerivedAddress
                         (Example.host Example.configured (Ok Null)
                                       Example.derivation_fails
                                       (Ok (Success "hash"))) 0
                         Example.one_provider))))) = 1.
Proof.
  refine (proj1 (multichain_null_result_is_not_cached
                   (Example.host Example.configured (Ok Null)
                                 Example.derivation_fails (Ok (Success "hash")))
                   0 {| accountId := "alice.testnet";
                        cache := NodeCache.create 300 |}
                   Example.one_provider _ _ eq_refl _ _ eq_refl)).
  vm_compute. reflexivity.
Defined.

Lemma multichain_getDerivedAddress_is_local_witness :
  length (heap (snd (fst (MultiChain.getDerivedAddress
                            (Example.simulated (Ok Null) (Ok (Success "hash")))
                            0 Example.one_provider)))) = 1
  /\ exists p',
       heap (snd (fst (MultiChain.getDerivedAddress
                         (Example.simulated (Ok Null) (Ok (Success "hash")))
                         0 Example.one_provider))) !! 0 = Some p'
       /\ accountId p' = "alice.testnet".
Proof.
  pose proof (multichain_getDerivedAddress_is_local
                (Example.simulated (Ok Null) (Ok (Success "hash"))) 0
                {| accountId := "alice.testnet"; cache := NodeCache.create 300 |}
                Example.one_provider _ _ _ eq_refl eq_refl)
    as (Hlen & _ & Hthis & _).
  split; [exact Hlen | exact Hthis].
Defined.

Lemma walletProvider_get_returns_what_was_derived_witness :
  exists account b e,
    truthy (Example.configured "NEAR_ADDRESS") = Some account
    /\ snd (MultiChain.walletProvider_get
              (Example.simulated (Ok Null) (Ok (Success "hash")))
              Example.start)
       = [EvDerive BTC (Some (MultiChain.getBitcoinConfig Example.configured))
                   account "bitcoin-1" (Ok b);
          EvDerive EVM (Some (MultiChain.getEvmConfig Example.configured))
                   account "evm-1" (Ok e);
          EvLog LogInfo "Chain Signatures derived addresses:"]
    /\ {| MultiChain.btc := "tb1qsender"; MultiChain.evm := "0xsender" |}
       = {| MultiChain.btc := address b; MultiChain.evm := address e |}.
Proof.
  exact (proj1 (walletProvider_get_returns_what_was_derived
                  (Example.simulated (Ok Null) (Ok (Success "hash"))))
               Example.start _ _ _ eq_refl).
Defined.

Lemma btconly_reuse_depends_on_truth_of_the_address_witness :
  BtcOnly.getDerivedAddress
    (Example.simulated (Ok Null) (Ok (Success "hash"))) 0
    (Fixtures.cached_until "derived-address-bitcoin-alice.testnet"
                           "tb1qsender" 300000 299999)
  = (Ok (Some "tb1qsender"),
     Fixtures.cached_until "derived-address-bitcoin-alice.testnet"
                           "tb1qsender" 300000 299999,
     [Trace.hit])
  /\ Trace.count (Trace.is_derive BTC)
       (snd (BtcOnly.getDerivedAddress
               (Example.simulated (Ok Null) (Ok (Success "hash"))) 0
               (Fixtures.cached_until "derived-address-bitcoin-alice.testnet"
                                      "" 300000 299999))) = 1.
Proof.
  split.
  - refine (btconly_reuse_depends_on_truth_of_the_address
              (Example.simulated (Ok Null) (Ok (Success "hash"))) 0 _
              (Fixtures.cached_until "derived-address-bitcoin-alice.testnet"
                                     "tb1qsender" 300000 299999)
              {| NodeCache.v := "tb1qsender"; NodeCache.t := 300000 |}
              eq_refl _ _).
    + vm_compute. reflexivity.
    + right. vm_compute. discriminate.
  - refine (proj1 (btconly_reuse_depends_on_truth_of_the_address
                     (Example.simulated (Ok Null) (Ok (Success "hash"))) 0 _
                     (Fixtures.cached_until
                        "derived-address-bitcoin-alice.testnet" "" 300000 299999)
                     {| NodeCache.v := ""; NodeCache.t := 300000 |}
                     eq_refl _ _)).
    + vm_compute. reflexivity.
    + right. vm_compute. discriminate.
Defined.

Lemma cached_address_expires_after_ttl_witness :
  Trace.count (Trace.is_derive BTC)
    (snd (MultiChain.getDerivedAddress
            (Example.simulated (Ok Null) (Ok (Success "hash"))) 0
            {| world := 302001%Z;
               heap := heap (snd (fst (MultiChain.getDerivedAddress
                                         (Example.simulated (Ok Null)
                                            (Ok (Success "hash")))
                                         0 Example.one_provider))) |})) = 1.
Proof.
  refine (proj1 (cached_address_expires_after_ttl
                   (Example.simulated (Ok Null) (Ok (Success "hash"))) 0
                   {| accountId := "alice.testnet";
                      cache := NodeCache.create 300 |}
                   Example.one_provider
                   (snd (fst (MultiChain.getDerivedAddress
                                (Example.simulated (Ok Null) (Ok (Success "hash")))
                                0 Example.one_provider)))
                   (snd (MultiChain.getDerivedAddress
                           (Example.simulated (Ok Null) (Ok (Success "hash")))
                           0 Example.one_provider))
                   {| MultiChain.btc := "tb1qsender";
                      MultiChain.evm := "0xsender" |}
                   eq_refl eq_refl _ _ _
                   {| world := 302001%Z;
                      heap := heap (snd (fst (MultiChain.getDerivedAddress
                                                (Example.simulated (Ok Null)
                                                   (Ok (Success "hash")))
                                                0 Example.one_provider))) |}
                   eq_refl _)).
  - vm_compute. reflexivity.
  - vm_compute. reflexivity.
  - vm_compute. discriminate.
  - vm_compute. reflexivity.
Defined.

Lemma handler_signs_what_was_extracted_witness :
  exists request,
    In (EvSignAndSend BTC request "ed25519:secret" (Ok (Success "ABC123XYZ")))
       (snd (MultiChain.handler
               (Example.simulated (Ok (Example.intent "tb1qdest" "0.0001" "BTC"))
                                  (Ok (Success "ABC123XYZ")))
               tt None (Some Example.quiet) Example.start))
    /\ tx_to (transaction request) = "tb1qdest"
    /\ tx_value (transaction request) = "10000"
    /\ derivationPath request = "bitcoin-1".
Proof.
  eexists. split.
  - vm_compute. do 5 right. left. reflexivity.
  - refine (proj2 (proj1 (handler_signs_what_was_extracted
                            (Example.simulated
                               (Ok (Example.intent "tb1qdest" "0.0001" "BTC"))
                               (Ok (Success "ABC123XYZ")))
                            tt None (Some Example.quiet))
                         Example.start _ _ _ "context" TransferSchema
                         (Example.intent "tb1qdest" "0.0001" "BTC")
                         BTC _ "ed25519:secret" (Ok (Success "ABC123XYZ"))
                         eq_refl _ _)).
    + vm_compute. right. left. reflexivity.
    + vm_compute. do 5 right. left. reflexivity.
Defined.

Lemma handler_reports_success_only_when_signed_witness :
  exists chain request key hash,
    In (EvSignAndSend chain request key (Ok (Success hash)))
       (snd (MultiChain.handler
               (Example.simulated (Ok (Example.intent "0xdest" "1.5" "ETH"))
                                  (Ok (Success "0xhash")))
               tt None (Some Example.quiet) Example.start))
    /\ Trace.count Observe.is_sign_and_send
         (snd (MultiChain.handler
                 (Example.simulated (Ok (Example.intent "0xdest" "1.5" "ETH"))
                                    (Ok (Success "0xhash")))
                 tt None (Some Example.quiet) Example.start)) = 1
    /\ (Some Example.quiet <> None ->
        exists response amount recipient,
          last (snd (MultiChain.handler
                       (Example.simulated
                          (Ok (Example.intent "0xdest" "1.5" "ETH"))
                          (Ok (Success "0xhash")))
                       tt None (Some Example.quiet) Example.start))
          = Some (EvCallback response (Ok tt))
          /\ content response = SuccessContent hash amount recipient
          /\ Trace.contains hash (text response)).
Proof.
  refine (proj1 (handler_reports_success_only_when_signed
                   (Example.simulated (Ok (Example.intent "0xdest" "1.5" "ETH"))
                                      (Ok (Success "0xhash")))
                   tt None (Some Example.quiet))
                Example.start
                (snd (fst (MultiChain.handler
                             (Example.simulated
                                (Ok (Example.intent "0xdest" "1.5" "ETH"))
                                (Ok (Success "0xhash")))
                             tt None (Some Example.quiet) Example.start)))
                _ _).
  vm_compute. reflexivity.
Defined.

Lemma transfer_signs_with_what_it_derived_witness :
  exists request derived,
    In (EvSignAndSend EVM request "ed25519:secret" (Ok (Success "0xhash")))
       (snd (MultiChain.transfer
               (Example.simulated (Ok Null) (Ok (Success "0xhash")))
               "ETH" "0xdest" "1.5" Example.start))
    /\ tx_from (transaction request) = address derived
    /\ tx_publicKey (transaction request) = None
    /\ auth_accountId (nearAuthentication request) = "alice.testnet".
Proof.
  assert (Hin : exists request,
             In (EvSignAndSend EVM request "ed25519:secret" (Ok (Success "0xhash")))
                (snd (MultiChain.transfer
                        (Example.simulated (Ok Null) (Ok (Success "0xhash")))
                        "ETH" "0xdest" "1.5" Example.start))).
  { eexists. vm_compute. do 3 right. left. reflexivity. }
  destruct Hin as [request Hin].
  destruct (transfer_signs_with_what_it_derived
              (Example.simulated (Ok Null) (Ok (Success "0xhash")))
              "ETH" "0xdest" "1.5" Example.start _ _ _ EVM request
              "ed25519:secret" (Ok (Success "0xhash")) eq_refl Hin)
    as (config & account & secret & derived & _ & Hacc & _ & _ & Hfrom & Hpk
        & Hauth & _).
  exists request, derived. split; [exact Hin |]. split; [exact Hfrom |].
  split; [exact Hpk |]. rewrite Hauth. injection Hacc as <-. reflexivity.
Defined.

Lemma handler_throws_on_null_content_witness :
  (exists e,
      fst (fst (MultiChain.handler
                  (Example.simulated (Ok Null) (Ok (Success "hash")))
                  tt None (Some Example.quiet) Example.start)) = Throw e
      /\ name e = "TypeError")
  /\ Trace.count Trace.is_callback
       (snd (MultiChain.handler
               (Example.simulated (Ok Null) (Ok (Success "hash")))
               tt None (Some Example.quiet) Example.start)) = 0
  /\ Trace.count Trace.is_call
       (snd (MultiChain.handler
               (Example.simulated (Ok Null) (Ok (Success "hash")))
               tt None (Some Example.quiet) Example.start)) = 0.
Proof.
  refine (proj1 (handler_throws_on_null_content
                   (Example.simulated (Ok Null) (Ok (Success "hash")))
                   tt None (Some Example.quiet))
                Example.start _ _ _ "context" TransferSchema Null eq_refl _ _).
  - vm_compute. right. left. reflexivity.
  - left. reflexivity.
Defined.

Lemma handler_calls_back_at_most_twice_witness :
  exists said hash amount recipient e again answer,
    In (EvCallback
          {| text := said;
             content := SuccessContent hash amount recipient |}
          (Throw e))
       (snd (BtcOnly.handler
               (Example.simulated (Ok (Example.intent "tb1qdest" "0.0001" "BTC"))
                                  (Ok (Success "ABC123XYZ")))
               tt None (Some Example.throwing_on_success) Example.start))
    /\ last (snd (BtcOnly.handler
                    (Example.simulated
                       (Ok (Example.intent "tb1qdest" "0.0001" "BTC"))
                       (Ok (Success "ABC123XYZ")))
                    tt None (Some Example.throwing_on_success) Example.start))
       = Some (EvCallback again answer)
    /\ content again = ErrorContent e.
Proof.
  refine (proj2 (proj2 (proj2 (proj2
            (proj2 (handler_calls_back_at_most_twice
                      (Example.simulated
                         (Ok (Example.intent "tb1qdest" "0.0001" "BTC"))
                         (Ok (Success "ABC123XYZ")))
                      tt None (Some Example.throwing_on_success))
                   Example.start _ _ _ eq_refl)))) _).
  vm_compute. reflexivity.
Defined.

Lemma handler_passes_on_early_failures_witness :
  fst (fst (MultiChain.handler
              (Example.simulated (Throw (new_Error "model unavailable"))
                                 (Ok (Success "hash")))
              tt None (Some Example.quiet) Example.start))
  = Throw (new_Error "model unavailable")
  /\ Trace.count Trace.is_callback
       (snd (MultiChain.handler
               (Example.simulated (Throw (new_Error "model unavailable"))
                                  (Ok (Success "hash")))
               tt None (Some Example.quiet) Example.start)) = 0
  /\ Trace.count Trace.is_call
       (snd (MultiChain.handler
               (Example.simulated (Throw (new_Error "model unavailable"))
                                  (Ok (Success "hash")))
               tt None (Some Example.quiet) Example.start)) = 0
  /\ Trace.count Trace.is_signer_call
       (snd (MultiChain.handler
               (Example.simulated (Throw (new_Error "model unavailable"))
                                  (Ok (Success "hash")))
               tt None (Some Example.quiet) Example.start)) = 0.
Proof.
  refine (proj1 (handler_passes_on_early_failures
                   (Example.simulated (Throw (new_Error "model unavailable"))
                                      (Ok (Success "hash")))
                   tt None (Some Example.quiet))
                Example.start _ _ _ (new_Error "model unavailable") eq_refl _).
  right. right. exists "context", TransferSchema.
  vm_compute. right. left. reflexivity.
Defined.

Lemma transfer_sends_special_amounts_as_they_print_witness :
  exists request,
    In (EvSignAndSend BTC request "ed25519:secret" (Ok (Success "hash")))
       (snd (MultiChain.transfer
               (Example.simulated (Ok Null) (Ok (Success "hash")))
               "BTC" "tb1qdest" "a lot" Example.start))
    /\ tx_value (transaction request) = "NaN".
Proof.
  eexists. split.
  - vm_compute. do 3 right. left. reflexivity.
  - refine (transfer_sends_special_amounts_as_they_print
              (Example.simulated (Ok Null) (Ok (Success "hash")))
              "BTC" "tb1qdest" "a lot" Example.start _ _ _ BTC _
              "ed25519:secret" (Ok (Success "hash")) eq_refl _ _).
    + vm_compute. do 3 right. left. reflexivity.
    + intros s m e. vm_compute. discriminate.
Defined.

Lemma btconly_unknown_network_fails_before_signing_witness :
  BtcOnly.transferBTC
    (Fixtures.strict_host Fixtures.on_devnet (Ok (Success "hash")))
    "tb1qdest" "0.001" Example.start
  = (Throw (new_TypeError "configuration is undefined"),
     {| world := 0%Z; heap := [] |},
     [EvCall "transferBTC" ["tb1qdest"; "0.001"];
      EvDerive BTC None "alice.testnet" "bitcoin-1"
               (Throw (new_TypeError "configuration is undefined"))]).
Proof.
  exact (btconly_unknown_network_fails_before_signing
           (Fixtures.strict_host Fixtures.on_devnet (Ok (Success "hash")))
           "tb1qdest" "0.001" "alice.testnet" "ed25519:secret" Example.start
           eq_refl eq_refl eq_refl).
Defined.

(** A [NEAR_NETWORK] that names a member every object inherits is not
    found out at all in the BTC-only sources: the table answers with that
    member, which has none of the configuration's fields, and the
    transaction is signed for no network, no provider and no contract. *)
Example btconly_inherited_network_name_is_signed_for :
  BtcOnly.BITCOIN_CONFIGS "constructor" = Some BtcOnly.prototype_member
  /\ fst (fst (BtcOnly.transferBTC
                 (Example.host Fixtures.on_inherited_name (Ok Null)
                               Example.derives (Ok (Success "hash")))
                 "tb1qdest" "0.001" Example.start))
     = Ok "hash"
  /\ exists request,
       In (EvSignAndSend BTC request "ed25519:secret" (Ok (Success "hash")))
          (snd (BtcOnly.transferBTC
                  (Example.host Fixtures.on_inherited_name (Ok Null)
                                Example.derives (Ok (Success "hash")))
                  "tb1qdest" "0.001" Example.start))
       /\ chainConfig request
          = {| rc_network := None; rc_providerUrl := None;
               rc_contract := None |}
       /\ auth_networkId (nearAuthentication request) = None.
Proof.
  split; [reflexivity |]. split; [vm_compute; reflexivity |].
  eexists. split; [vm_compute; do 2 right; left; reflexivity |].
  split; reflexivity.
Qed.

(** White space before the amount is no part of the number, whichever
    white space it is: a no-break space before [0.5] sends half a
    bitcoin. *)
Example amount_after_no_break_space_is_read :
  Trace.sent_values
    (snd (MultiChain.handler
            (Example.simulated
               (Ok (Example.intent "tb1qdest"
                                   (Fixtures.no_break_space +:+ "0.5") "BTC"))
               (Ok (Success "ABC123XYZ")))
            tt None None Example.start))
  = ["50000000"].
Proof. vm_compute. reflexivity. Qed.

Lemma multichain_unknown_network_signs_without_contract_witness :
  exists request,
    In (EvSignAndSend BTC request "ed25519:secret" (Ok (Success "hash")))
       (snd (MultiChain.transfer
               (Example.host Fixtures.on_devnet (Ok Null) Example.derives
                             (Ok (Success "hash")))
               "BTC" "tb1qdest" "0.001" Example.start))
    /\ rc_contract (chainConfig request) = None
    /\ auth_networkId (nearAuthentication request) = None.
Proof.
  eexists. split.
  - vm_compute. do 3 right. left. reflexivity.
  - refine (multichain_unknown_network_signs_without_contract
              (Example.host Fixtures.on_devnet (Ok Null) Example.derives
                            (Ok (Success "hash")))
              "BTC" "tb1qdest" "0.001" Example.start _ _ _ BTC _
              "ed25519:secret" (Ok (Success "hash")) eq_refl _ eq_refl).
    vm_compute. do 3 right. left. reflexivity.
Defined.

Lemma bitcoin_configurations_of_the_two_variants_witness :
  BtcOnly.BITCOIN_CONFIGS "mainnet"
  = Some {| nearNetworkId := Some "mainnet";
            contract := Some "v1.signer";
            network := Some "mainnet";
            providerUrl := Some "https://mempool.space/api" |}
  /\ network (MultiChain.getBitcoinConfig Fixtures.on_mainnet) = Some "testnet".
Proof.
  apply (bitcoin_configurations_of_the_two_variants Fixtures.on_mainnet
           eq_refl eq_refl).
  right. right. reflexivity.
Defined.
